(** * MySqlToHiveOperator: a shallow embedding of
      airflow/providers/apache/hive/transfers/mysql_to_hive.py

    The operator runs a query against MySQL, dumps the rows to a local
    temporary file through a csv writer, infers the Hive column types from
    the cursor's metadata and hands the file to [HiveCliHook.load_file].

    Layout of the development:
    - [Py]        the few Python notions the module relies on (dict literals,
                  [dict.get], [OrderedDict], truthiness, exceptions);
    - [FIELD_TYPE] the MySQLdb type codes used by [type_map];
    - the operator record, [init] and [type_map];
    - [Run]       the effects of [execute]: the MySQL handles, the temporary
                  file, the Hive warehouse and the trace of external calls;
    - [Demo]      a sample query, with the operators and failures the
                  theorems are tried on;
    - the tactics of the proofs, and the theorems: [type_map] and [init],
      the Field Dictionary, the runs of [execute], the sample query. *)

From Stdlib Require Import ZArith String Ascii List Bool Lia.
From stdpp Require Import gmap strings list fin_maps.

Local Open Scope string_scope.

(** ** Python notions *)

Module Py.

(** A dict display [{k1: v1, ..., kn: vn}] is evaluated left to right, each
    entry stored with [d[k] = v]: a later entry replaces an earlier one with
    the same key. *)
Definition dict_literal {K V} `{Countable K} (entries : list (K * V)) : gmap K V :=
  foldl (fun d kv => <[kv.1 := kv.2]> d) ∅ entries.

(** [d[k]] raises KeyError on a missing key, [d.get(k, dflt)] never does. *)
Definition dict_get {K V} `{Countable K} (d : gmap K V) (k : K) (dflt : V) : V :=
  match d !! k with
  | Some v => v
  | None => dflt
  end.

(** [collections.OrderedDict] keyed by strings: the entries in insertion
    order.  [d[k] = v] on a key already present replaces the value and keeps
    the entry where it is; a new key goes to the end. *)
Abbreviation OrderedDict V := (list (string * V)).

Fixpoint od_setitem {V} (d : OrderedDict V) (k : string) (v : V) : OrderedDict V :=
  match d with
  | [] => [(k, v)]
  | (k', v') :: d' =>
      if decide (k' = k) then (k', v) :: d' else (k', v') :: od_setitem d' k v
  end.

Fixpoint od_get {V} (d : OrderedDict V) (k : string) : option V :=
  match d with
  | [] => None
  | (k', v') :: d' => if decide (k' = k) then Some v' else od_get d' k
  end.

Definition od_keys {V} (d : OrderedDict V) : list string := fst <$> d.

(** Truthiness of the values [init] applies [or] to. *)
Definition truthy_dict {K V} `{Countable K} (o : option (gmap K V)) : bool :=
  match o with
  | None => false
  | Some d => negb (bool_decide (d = ∅))
  end.

Definition truthy_int (o : option Z) : bool :=
  match o with
  | None => false
  | Some z => negb (z =? 0)%Z
  end.

End Py.

(** ** MySQLdb.constants.FIELD_TYPE

    [type_map] reads twelve type codes from the MySQLdb package.  The package
    is not part of the operator's sources, so the codes are a parameter of
    [type_map]; [FIELD_TYPE.MySQLdb] lists the values of MySQL's
    [enum_field_types], which MySQLdb exports. *)

Module FIELD_TYPE.

Record t := {
  DECIMAL : Z;
  TINY : Z;
  SHORT : Z;
  LONG : Z;
  FLOAT : Z;
  DOUBLE : Z;
  TIMESTAMP : Z;
  LONGLONG : Z;
  INT24 : Z;
  YEAR : Z;
  BIT : Z;
  NEWDECIMAL : Z
}.

Definition MySQLdb : t := {|
  DECIMAL := 0;
  TINY := 1;
  SHORT := 2;
  LONG := 3;
  FLOAT := 4;
  DOUBLE := 5;
  TIMESTAMP := 7;
  LONGLONG := 8;
  INT24 := 9;
  YEAR := 13;
  BIT := 16;
  NEWDECIMAL := 246
|}.

(** The codes in the order [type_map] lists them. *)
Definition mapped (types : t) : list Z :=
  [BIT types; DECIMAL types; NEWDECIMAL types; DOUBLE types; FLOAT types;
   INT24 types; LONG types; LONGLONG types; SHORT types; TINY types;
   YEAR types; TIMESTAMP types].

End FIELD_TYPE.

(** ** The operator *)

Abbreviation pdict := (gmap string string).

(** csv.QUOTE_* *)
Definition QUOTE_MINIMAL : Z := 0.
Definition QUOTE_ALL : Z := 1.
Definition QUOTE_NONNUMERIC : Z := 2.
Definition QUOTE_NONE : Z := 3.

(** The attributes [__init__] sets.  [partition] and [tblproperties] are
    attributes that can hold [None]. *)
Record MySqlToHiveOperator := {
  sql : string;
  hive_table : string;
  partition : option pdict;
  create : bool;
  recreate : bool;
  delimiter : string;
  quoting : Z;
  quotechar : string;
  escapechar : option string;
  mysql_conn_id : string;
  hive_cli_conn_id : string;
  tblproperties : option pdict
}.

(** The keyword arguments of [__init__]; [default_args] gives the defaults of
    the signature for a query and a table. *)
Record init_args := {
  a_sql : string;
  a_hive_table : string;
  a_create : bool;
  a_recreate : bool;
  a_partition : option pdict;
  a_delimiter : string;
  a_quoting : option Z;
  a_quotechar : string;
  a_escapechar : option string;
  a_mysql_conn_id : string;
  a_hive_cli_conn_id : string;
  a_tblproperties : option pdict
}.

Definition default_args (q table : string) : init_args := {|
  a_sql := q;
  a_hive_table := table;
  a_create := true;
  a_recreate := false;
  a_partition := None;
  a_delimiter := String (ascii_of_nat 1) EmptyString;
  a_quoting := None;
  a_quotechar := String (ascii_of_nat 34) EmptyString;
  a_escapechar := None;
  a_mysql_conn_id := "mysql_default";
  a_hive_cli_conn_id := "hive_cli_default";
  a_tblproperties := None
|}.

(** [self.partition = partition] (line 107) is overwritten by
    [self.partition = partition or {}] (line 116); the record holds the
    attribute values when [__init__] returns. *)
Definition init (a : init_args) : MySqlToHiveOperator := {|
  sql := a_sql a;
  hive_table := a_hive_table a;
  partition :=
    (if Py.truthy_dict (a_partition a) then a_partition a else Some ∅);
  create := a_create a;
  recreate := a_recreate a;
  delimiter := a_delimiter a;
  quoting :=
    (if Py.truthy_int (a_quoting a)
     then match a_quoting a with Some z => z | None => QUOTE_MINIMAL end
     else QUOTE_MINIMAL);
  quotechar := a_quotechar a;
  escapechar := a_escapechar a;
  mysql_conn_id := a_mysql_conn_id a;
  hive_cli_conn_id := a_hive_cli_conn_id a;
  tblproperties := a_tblproperties a
|}.

(** [type_map]: the dict display of lines 123-136 and the lookup with the
    'STRING' fallback of line 137. *)
Definition type_map (types : FIELD_TYPE.t) (mysql_type : Z) : string :=
  let type_map : gmap Z string :=
    Py.dict_literal
      [(FIELD_TYPE.BIT types, "INT");
       (FIELD_TYPE.DECIMAL types, "DOUBLE");
       (FIELD_TYPE.NEWDECIMAL types, "DOUBLE");
       (FIELD_TYPE.DOUBLE types, "DOUBLE");
       (FIELD_TYPE.FLOAT types, "DOUBLE");
       (FIELD_TYPE.INT24 types, "INT");
       (FIELD_TYPE.LONG types, "BIGINT");
       (FIELD_TYPE.LONGLONG types, "DECIMAL(38,0)");
       (FIELD_TYPE.SHORT types, "INT");
       (FIELD_TYPE.TINY types, "SMALLINT");
       (FIELD_TYPE.YEAR types, "INT");
       (FIELD_TYPE.TIMESTAMP types, "TIMESTAMP")] in
  Py.dict_get type_map mysql_type "STRING".

(** The Hive type names [type_map] can answer with. *)
Definition hive_types : list string :=
  ["INT"; "DOUBLE"; "BIGINT"; "DECIMAL(38,0)"; "SMALLINT"; "TIMESTAMP"; "STRING"].

(** An entry of [cursor.description]: [field[0]] is the column name and
    [field[1]] its type code (the five other items are not read). *)
Record field := { f_name : string; f_type_code : Z }.

(** Lines 156-158: the loop that fills [field_dict]. *)
Definition build_field_dict (types : FIELD_TYPE.t) (description : list field)
  : Py.OrderedDict string :=
  foldl (fun field_dict f =>
           Py.od_setitem field_dict (f_name f) (type_map types (f_type_code f)))
        [] description.

(** ** Effects of [execute] *)

(** The exceptions that can end a run.  [CsvError] is csv.Error and
    [TypeError] Python's built-in; the others are the error kinds of the
    source and destination systems. *)
Inductive exn :=
  | ConnectionError
  | QueryError
  | IOError
  | CsvError
  | TypeError
  | TableNotFoundError
  | SchemaMismatchError.

Inductive result (A : Type) :=
  | Ok (a : A)
  | Raise (e : exn).
Arguments Ok {A} a.
Arguments Raise {A} e.

(** The keyword arguments [execute] passes to [csv.writer] (lines 148-155;
    the encoding is always utf-8). *)
Record csv_kwargs := {
  kw_delimiter : string;
  kw_quoting : Z;
  kw_quotechar : string;
  kw_escapechar : option string
}.

Module Run.

(** A MySQL connection or cursor object. *)
Inductive handle := Unopened | Opened | Closed.

(** The arguments of [hive.load_file] (lines 164-173). *)
Record load_args := {
  la_filepath : string;
  la_table : string;
  la_field_dict : Py.OrderedDict string;
  la_create : bool;
  la_partition : option pdict;
  la_delimiter : string;
  la_recreate : bool;
  la_tblproperties : option pdict
}.

(** The calls into the outside world; each can raise. *)
Inductive step :=
  | SHiveCliHook
  | SMySqlHook
  | SGetConn
  | SCursor
  | SExecute
  | STmpCreate
  | SFetch (k : nat)
  | SWrite (k : nat)
  | SFlush
  | SCursorClose
  | SConnClose
  | SDrop
  | SCreate
  | SLoad
  | STmpClose.

(** The calls that went through, in order. *)
Inductive event :=
  | EvHiveCliHook
  | EvMySqlHook
  | EvGetConn
  | EvCursor
  | EvExecute (q : string)
  | EvTmpCreate (f : string)
  | EvWrite (f : string) (data : string)
  | EvFlush (f : string)
  | EvCursorClose
  | EvConnClose
  | EvLoadFile (a : load_args)
  | EvTmpClose (f : string).

(** A table of the destination: its columns, field terminator and
    properties, and the files loaded into it with their partition. *)
Record table := {
  t_columns : list (string * string);
  t_delimiter : string;
  t_tblproperties : option pdict;
  t_loads : list (option pdict * string)
}.

(** What a run can touch: the MySQL connection and cursor, the local disk
    ([fs]: path to bytes on disk), the open file objects ([handles]: path to
    the bytes written but not yet flushed), the Hive warehouse and the trace
    of calls. *)
Record World := {
  conn : handle;
  cursor : handle;
  fs : gmap string string;
  handles : gmap string string;
  warehouse : gmap string table;
  trace : list event
}.

Definition set_conn (h : handle) (w : World) : World :=
  {| conn := h; cursor := cursor w; fs := fs w; handles := handles w;
     warehouse := warehouse w; trace := trace w |}.

Definition set_cursor (h : handle) (w : World) : World :=
  {| conn := conn w; cursor := h; fs := fs w; handles := handles w;
     warehouse := warehouse w; trace := trace w |}.

Definition set_fs (d : gmap string string) (w : World) : World :=
  {| conn := conn w; cursor := cursor w; fs := d; handles := handles w;
     warehouse := warehouse w; trace := trace w |}.

Definition set_handles (h : gmap string string) (w : World) : World :=
  {| conn := conn w; cursor := cursor w; fs := fs w; handles := h;
     warehouse := warehouse w; trace := trace w |}.

Definition set_warehouse (wh : gmap string table) (w : World) : World :=
  {| conn := conn w; cursor := cursor w; fs := fs w; handles := handles w;
     warehouse := wh; trace := trace w |}.

Definition emit (e : event) (w : World) : World :=
  {| conn := conn w; cursor := cursor w; fs := fs w; handles := handles w;
     warehouse := warehouse w; trace := trace w ++ [e] |}.

(** *** The temporary file *)

(** [NamedTemporaryFile("wb")]: a new empty file under a name not in use,
    and an open file object on it. *)
Definition tmp_open (f : string) (w : World) : World :=
  set_handles (<[f := ""]> (handles w)) (set_fs (<[f := ""]> (fs w)) w).

(** [f.write(data)]: the bytes go to the file object's buffer. *)
Definition tmp_write (f data : string) (w : World) : World :=
  set_handles (<[f := Py.dict_get (handles w) f "" +:+ data]> (handles w)) w.

(** [f.flush()]: the buffered bytes reach the disk. *)
Definition tmp_flush (f : string) (w : World) : World :=
  set_handles (<[f := ""]> (handles w))
    (set_fs (<[f := Py.dict_get (fs w) f "" +:+ Py.dict_get (handles w) f ""]> (fs w)) w).

(** [f.close()] on the file object: it is closed, also when flushing what
    is left in its buffer fails (io closes the descriptor in a [finally]). *)
Definition file_close (f : string) (w : World) : World :=
  set_handles (delete f (handles w)) w.

(** [os.unlink(f.name)]. *)
Definition unlink (f : string) (w : World) : World :=
  set_fs (delete f (fs w)) w.

(** *** The monad of [execute]: state, and exceptions that keep the state *)

Definition M (A : Type) : Type := World -> World * result A.

Definition ret {A} (a : A) : M A := fun w => (w, Ok a).

Definition raise {A} (e : exn) : M A := fun w => (w, Raise e).

Definition bind {A B} (m : M A) (k : A -> M B) : M B :=
  fun w =>
    match m w with
    | (w', Ok a) => k a w'
    | (w', Raise e) => (w', Raise e)
    end.

Definition lift {A} (r : result A) : M A := fun w => (w, r).

Declare Scope run_scope.
Delimit Scope run_scope with run.
Notation "x <- m ;; k" := (bind m (fun x => k))
  (at level 100, m at next level, k at level 200, right associativity) : run_scope.
Notation "m ;; k" := (bind m (fun _ => k))
  (at level 100, k at level 200, right associativity) : run_scope.

Section Execute.

Context {value : Type}.

(** The MySQLdb type codes. *)
Variable types : FIELD_TYPE.t.

(** Which calls raise in this run, and with what. *)
Variable fault : step -> option exn.

(** What the server answers to a query: [cursor.description] ([None] for a
    statement without a result set) and the rows the cursor yields. *)
Variable mysql_result : string -> option (list field) * list (list value).

(** [csv.writer(f, ...)]: rejects a bad dialect, and otherwise gives the
    function from a row to the record that [writerow] writes. *)
Variable csv_writer : csv_kwargs -> result (list value -> result string).

(** An external call: it raises what [fault] says, or it goes through, with
    its effect on the world, and is recorded. *)
Definition call (s : step) (ev : event) (effect : World -> World) : M unit :=
  fun w =>
    match fault s with
    | Some e => (w, Raise e)
    | None => (emit ev (effect w), Ok tt)
    end.

(** A call that leaves no record (fetching a row). *)
Definition call_ (s : step) : M unit :=
  fun w =>
    match fault s with
    | Some e => (w, Raise e)
    | None => (w, Ok tt)
    end.

(** Leaving the [with] block, as [__exit__] of tempfile's wrapper does:
    [self.file.__exit__(...)], which closes the file object, and then
    [self.close()], which unlinks the file.  When closing the file object
    raises, the unlink is not reached: the exception leaves the block and
    the file stays on disk, with the bytes that had reached it.
    [EvTmpClose f] records a close that went through, the file removed. *)
Definition tmp_exit {A} (f : string) (w : World) (r : result A) : World * result A :=
  match fault STmpClose with
  | Some e => (file_close f w, Raise e)
  | None => (emit (EvTmpClose f) (unlink f (file_close f w)), r)
  end.

(** [with NamedTemporaryFile("wb") as f: body]: the block is left through
    [tmp_exit] when the body returns and when it raises; an exception of
    the body is re-raised unless closing raises itself. *)
Definition with_NamedTemporaryFile {A} (body : string -> M A) : M A :=
  fun w =>
    match fault STmpCreate with
    | Some e => (w, Raise e)
    | None =>
        let f := fresh (dom (fs w)) in
        let (w', r) := body f (emit (EvTmpCreate f) (tmp_open f w)) in
        tmp_exit f w' r
    end.

(** [csv_writer.writerows(cursor)]: the rows are fetched one by one, each
    formatted and written to [f]. *)
Fixpoint writerows (f : string) (writerow : list value -> result string)
    (k : nat) (rows : list (list value)) : M unit :=
  match rows with
  | [] => ret tt
  | row :: rest =>
      (call_ (SFetch k) ;;
       line <- lift (writerow row) ;;
       call (SWrite k) (EvWrite f line) (tmp_write f line) ;;
       writerows f writerow (S k) rest)%run
  end.

(** Modelled from the spec: the CREATE TABLE of [HiveCliHook.load_file],
    whose code is in airflow/providers/apache/hive/hooks/hive.py and not
    among the sources.  Section 4.4: the table is created with the Field
    Dictionary as its column list, in order, the delimiter as field
    terminator and the table properties; a table that exists is left as it
    is ([create]: "whether to create the table if it doesn't exist"). *)
Definition create_table (a : load_args) (w : World) : World :=
  match warehouse w !! la_table a with
  | Some _ => w
  | None =>
      set_warehouse
        (<[la_table a := {| t_columns := la_field_dict a;
                            t_delimiter := la_delimiter a;
                            t_tblproperties := la_tblproperties a;
                            t_loads := [] |}]> (warehouse w)) w
  end.

(** Modelled from the spec: the load of [HiveCliHook.load_file].  Section
    4.4: the contents of the staged file go into the table under the given
    partition. *)
Definition load_data (a : load_args) (data : string) (w : World) : World :=
  match warehouse w !! la_table a with
  | Some t =>
      set_warehouse
        (<[la_table a := {| t_columns := t_columns t;
                            t_delimiter := t_delimiter t;
                            t_tblproperties := t_tblproperties t;
                            t_loads := t_loads t ++ [(la_partition a, data)] |}]>
           (warehouse w)) w
  | None => w
  end.

(** Modelled from the spec: [HiveCliHook.load_file], whose code is in
    airflow/providers/apache/hive/hooks/hive.py and not among the sources.
    Section 4.4: without [create] and [recreate] a missing table is
    TableNotFoundError; [recreate] drops the table before it is created;
    [create] or [recreate] create it; the file is then loaded.  The drop,
    the creation and the load are calls to Hive and can fail. *)
Definition load_file (a : load_args) : M unit :=
  fun w0 =>
    let w := emit (EvLoadFile a) w0 in
    if negb (la_create a || la_recreate a)
       && bool_decide (warehouse w !! la_table a = None)
    then (w, Raise TableNotFoundError)
    else
      ((if la_recreate a
        then call_ SDrop ;;
             (fun w => (set_warehouse (delete (la_table a) (warehouse w)) w, Ok tt))
        else ret tt) ;;
       (if la_create a || la_recreate a
        then call_ SCreate ;; (fun w => (create_table a w, Ok tt))
        else ret tt) ;;
       (fun w =>
          match fs w !! la_filepath a with
          | None => (w, Raise IOError)
          | Some data =>
              match fault SLoad with
              | Some e => (w, Raise e)
              | None => (load_data a data w, Ok tt)
              end
          end))%run w.

(** [execute] (lines 139-173).  The two [self.log.info] calls are left out. *)
Definition execute (self : MySqlToHiveOperator) : M unit :=
  (call SHiveCliHook EvHiveCliHook id ;;
   call SMySqlHook EvMySqlHook id ;;
   call SGetConn EvGetConn (set_conn Opened) ;;
   call SCursor EvCursor (set_cursor Opened) ;;
   call SExecute (EvExecute (sql self)) id ;;
   with_NamedTemporaryFile (fun f =>
     writerow <- lift (csv_writer {| kw_delimiter := delimiter self;
                                     kw_quoting := quoting self;
                                     kw_quotechar := quotechar self;
                                     kw_escapechar := escapechar self |}) ;;
     field_dict <- match fst (mysql_result (sql self)) with
                   | None => raise TypeError
                   | Some description => ret (build_field_dict types description)
                   end ;;
     writerows f writerow 0 (snd (mysql_result (sql self))) ;;
     call SFlush (EvFlush f) (tmp_flush f) ;;
     call SCursorClose EvCursorClose (set_cursor Closed) ;;
     call SConnClose EvConnClose (set_conn Closed) ;;
     load_file {| la_filepath := f;
                  la_table := hive_table self;
                  la_field_dict := field_dict;
                  la_create := create self;
                  la_partition := partition self;
                  la_delimiter := delimiter self;
                  la_recreate := recreate self;
                  la_tblproperties := tblproperties self |}))%run.

End Execute.

(** The world in which a run of [self] from [w] calls [hive.load_file],
    when it gets that far, [f] being the temporary file and [lines] the
    records written: the connection and the cursor closed, the records on
    disk in the temporary file, the buffer of its file object empty, the
    warehouse as the run found it, and every call of lines 140-162 made. *)
Definition at_load (self : MySqlToHiveOperator) (w : World) (f : string)
    (lines : list string) : World :=
  {| conn := Closed;
     cursor := Closed;
     fs := <[f := String.concat "" lines]> (fs w);
     handles := <[f := ""]> (handles w);
     warehouse := warehouse w;
     trace := trace w
              ++ [EvHiveCliHook; EvMySqlHook; EvGetConn; EvCursor;
                  EvExecute (sql self); EvTmpCreate f]
              ++ (EvWrite f <$> lines)
              ++ [EvFlush f; EvCursorClose; EvConnClose] |}.

(** *** Reading a trace *)

(** The bytes written to [f] and not flushed since, after the events [tr]. *)
Definition pending (f : string) (tr : list event) : string :=
  foldl (fun buf e =>
           match e with
           | EvWrite g data => if decide (g = f) then buf +:+ data else buf
           | EvFlush g => if decide (g = f) then "" else buf
           | EvTmpCreate g => if decide (g = f) then "" else buf
           | _ => buf
           end) "" tr.

(** Whether the calls [tr], which all went through, leave a file object
    on [f] open. *)
Definition is_open (f : string) (tr : list event) : bool :=
  foldl (fun o e =>
           match e with
           | EvTmpCreate g => if decide (g = f) then true else o
           | EvTmpClose g => if decide (g = f) then false else o
           | _ => o
           end) false tr.

(** Whether an event hands a file to the loader, and the traces in which
    none does. *)
Definition is_load (e : event) : bool :=
  match e with
  | EvLoadFile _ => true
  | _ => false
  end.

Definition no_load (tr : list event) : Prop :=
  Forall (fun e => is_load e = false) tr.

End Run.

(** ** A sample query

    Two columns, [id] of type LONG and [name] of a type outside the table of
    [type_map], and two rows, whose values are already text.  The writer
    does what [csv.writer] does under QUOTE_MINIMAL with values that need no
    quoting: the values of a row joined by the delimiter, and CR LF after
    each record. *)

Module Demo.
Import Run.

Definition crlf : string :=
  String (ascii_of_nat 13) (String (ascii_of_nat 10) EmptyString).

Definition description : list field :=
  [{| f_name := "id"; f_type_code := 3 |};
   {| f_name := "name"; f_type_code := 9999 |}].

Definition rows : list (list string) := [["1"; "ann"]; ["2"; "bob"]].

Definition mysql_result (q : string) : option (list field) * list (list string) :=
  (Some description, rows).


Definition csv_writer (kw : csv_kwargs) : result (list string -> result string) :=
  Ok (fun row => Ok (String.concat (kw_delimiter kw) row +:+ crlf)).


(** A self-join that selects [id] twice, once as LONG and once as TINY. *)
Definition twice : list field :=
  [{| f_name := "id"; f_type_code := 3 |};
   {| f_name := "id"; f_type_code := 1 |}].

(** The operator with the defaults of [__init__], and the same told not to
    create the table. *)
Definition op : MySqlToHiveOperator :=
  init (default_args "select id, name from t" "staging.t").

Definition load_only : MySqlToHiveOperator :=
  init {| a_sql := "select id, name from t";
          a_hive_table := "staging.t";
          a_create := false;
          a_recreate := false;
          a_partition := None;
          a_delimiter := ",";
          a_quoting := Some QUOTE_MINIMAL;
          a_quotechar := String (ascii_of_nat 34) EmptyString;
          a_escapechar := None;
          a_mysql_conn_id := "mysql_default";
          a_hive_cli_conn_id := "hive_cli_default";
          a_tblproperties := None |}.

(** Nothing fails; the disk fails on the second record. *)
Definition no_fault (s : step) : option exn := None.

Definition disk_full (s : step) : option exn :=
  match s with
  | SWrite 1 => Some IOError
  | _ => None
  end.

(** The disk fails on the second record and again when the file is
    closed with the first record still in its buffer. *)
Definition close_fails (s : step) : option exn :=
  match s with
  | SWrite 1 => Some IOError
  | STmpClose => Some IOError
  | _ => None
  end.

(** Before the run: no connection, an empty disk and an empty warehouse. *)
Definition w0 : World :=
  {| conn := Unopened; cursor := Unopened; fs := ∅; handles := ∅;
     warehouse := ∅; trace := [] |}.

(** For a run from [w0] in which nothing fails: the records of the rows,
    the calls up to [hive.load_file], and what that call is given.  The
    temporary file is created as "0", the first name free on an empty
    disk. *)
Definition lines (self : MySqlToHiveOperator) : list string :=
  (fun row => String.concat (delimiter self) row +:+ crlf) <$> rows.

Definition staged (self : MySqlToHiveOperator) : list event :=
  [EvHiveCliHook; EvMySqlHook; EvGetConn; EvCursor; EvExecute (sql self);
   EvTmpCreate "0"]
  ++ (EvWrite "0" <$> lines self)
  ++ [EvFlush "0"; EvCursorClose; EvConnClose].

Definition loaded (self : MySqlToHiveOperator) : load_args :=
  {| la_filepath := "0";
     la_table := hive_table self;
     la_field_dict := [("id", "BIGINT"); ("name", "STRING")];
     la_create := create self;
     la_partition := partition self;
     la_delimiter := delimiter self;
     la_recreate := recreate self;
     la_tblproperties := tblproperties self |}.

End Demo.

(** ** Proof tactics *)

(** A list of events that has no call of the loader in it. *)
Ltac no_load_events :=
  unfold Run.no_load;
  rewrite ?Forall_app, ?Forall_cons, ?Forall_nil, ?Forall_fmap;
  repeat split; try done; by apply Forall_true.

(** An element that stands in a list, or in one of the lists of an append. *)
Ltac in_list :=
  rewrite ?elem_of_app;
  solve [ assumption
        | apply list_elem_of_here
        | apply list_elem_of_further; in_list
        | left; in_list
        | right; in_list ].

(** What follows from an event being, or not being, in an explicit trace. *)
Ltac trace_mem :=
  simpl; unfold not; intros;
  repeat match goal with
  | H : _ ∈ [] |- _ => by apply elem_of_nil in H
  | H : _ ∈ _ :: _ |- _ => apply elem_of_cons in H as [H|H]; [try discriminate H|]
  | H : _ ∉ _ |- _ => exfalso; apply H; in_list
  | H : _ ∈ _ -> False |- _ => exfalso; apply H; in_list
  end; try done.

(** An event that cannot be in a trace made of explicit lists and of
    writes. *)
Ltac not_in_trace :=
  unfold not; intros;
  repeat match goal with
  | H : _ ∈ (_ ++ _)%list |- _ => apply elem_of_app in H as [H|H]
  | H : _ ∈ _ <$> _ |- _ =>
      apply list_elem_of_fmap in H as (? & H & _); discriminate H
  | H : _ ∈ [] |- _ => by apply elem_of_nil in H
  | H : _ ∈ _ :: _ |- _ => apply elem_of_cons in H as [H|H]; [discriminate H|]
  | H : _ ∈ match ?x with _ => _ end |- _ => destruct x
  end;
  eauto.

(** The events of a run, from [H : trace w' = trace w ++ tr] with the
    trace of [w'] known. *)
Ltac run_trace H :=
  simpl in H; rewrite <- ?app_assoc in H;
  first [ apply app_inv_head in H
        | rewrite <- (app_nil_r (Run.trace _)) in H at 1; apply app_inv_head in H ];
  simpl in H; subst.


(** * Theorems *)

Local Open Scope list_scope.

(** ** Dict displays and ordered dicts *)

Section DictFacts.
Context {K V : Type} `{Countable K}.
Implicit Types (l : list (K * V)) (m : gmap K V) (k : K) (v : V).

Local Abbreviation store := (fun d (kv : K * V) => <[kv.1 := kv.2]> d).

Lemma foldl_store_elem l m k v :
  foldl store m l !! k = Some v -> (k, v) ∈ l \/ m !! k = Some v.
Proof.
  revert m. induction l as [|[k' v'] l IH]; intros m Hl; simpl in *.
  - by right.
  - destruct (IH _ Hl) as [Hin|Hm].
    + left. by apply list_elem_of_further.
    + destruct (decide (k' = k)) as [->|Hne].
      * rewrite lookup_insert_eq in Hm. injection Hm as ->. left. apply list_elem_of_here.
      * rewrite lookup_insert_ne in Hm by done. by right.
Qed.

Lemma foldl_store_other l m k :
  k ∉ l.*1 -> foldl store m l !! k = m !! k.
Proof.
  revert m. induction l as [|[k' v'] l IH]; intros m Hk; simpl in *; [done|].
  apply not_elem_of_cons in Hk as [Hne Hk].
  rewrite IH by done. by rewrite lookup_insert_ne.
Qed.

Lemma foldl_store_NoDup l m k v :
  NoDup l.*1 -> (k, v) ∈ l -> foldl store m l !! k = Some v.
Proof.
  revert m. induction l as [|[k' v'] l IH]; intros m Hnd Hin; simpl in *.
  - by apply elem_of_nil in Hin.
  - apply NoDup_cons in Hnd as [Hk' Hnd].
    apply elem_of_cons in Hin as [Heq|Hin].
    + injection Heq as -> ->. rewrite foldl_store_other by done.
      apply lookup_insert_eq.
    + by apply IH.
Qed.

Lemma dict_get_literal_in l k v :
  NoDup l.*1 -> (k, v) ∈ l -> forall dflt, Py.dict_get (Py.dict_literal l) k dflt = v.
Proof.
  intros Hnd Hin dflt. unfold Py.dict_get, Py.dict_literal.
  by rewrite (foldl_store_NoDup _ _ _ _ Hnd Hin).
Qed.

Lemma dict_get_literal_default l k dflt :
  k ∉ l.*1 -> Py.dict_get (Py.dict_literal l) k dflt = dflt.
Proof.
  intros Hk. unfold Py.dict_get, Py.dict_literal.
  by rewrite foldl_store_other, lookup_empty.
Qed.

Lemma dict_get_literal_cases l k dflt :
  Py.dict_get (Py.dict_literal l) k dflt = dflt
  \/ (k, Py.dict_get (Py.dict_literal l) k dflt) ∈ l.
Proof.
  unfold Py.dict_get, Py.dict_literal.
  destruct (foldl store ∅ l !! k) as [v|] eqn:E; [|by left].
  right. apply foldl_store_elem in E as [?|E]; [done|].
  by rewrite lookup_empty in E.
Qed.

Lemma foldl_store_None l m k :
  foldl store m l !! k = None -> (k ∉ l.*1) /\ m !! k = None.
Proof.
  revert m. induction l as [|[k' v'] l IH]; intros m Hl; simpl in *.
  - split; [apply not_elem_of_nil|done].
  - destruct (IH _ Hl) as [Hk Hm].
    apply lookup_insert_None in Hm as [Hm Hne].
    split; [|done]. by apply not_elem_of_cons.
Qed.

(** A key of the display is answered with a value the display gives it. *)
Lemma dict_get_literal_mapped l k dflt :
  k ∈ l.*1 -> (k, Py.dict_get (Py.dict_literal l) k dflt) ∈ l.
Proof.
  intros Hk. unfold Py.dict_get, Py.dict_literal.
  destruct (foldl store ∅ l !! k) as [v|] eqn:E.
  - apply foldl_store_elem in E as [?|E]; [done|].
    by rewrite lookup_empty in E.
  - by apply foldl_store_None in E as [? _].
Qed.

End DictFacts.

(** ** [type_map] *)

(** C1: when the twelve MySQLdb codes are pairwise distinct, [type_map]
    answers each of them with the Hive type of the table, and every code
    outside the table with "STRING". *)
Theorem type_map_table (types : FIELD_TYPE.t) :
  NoDup (FIELD_TYPE.mapped types) ->
  type_map types (FIELD_TYPE.BIT types) = "INT"
  /\ type_map types (FIELD_TYPE.DECIMAL types) = "DOUBLE"
  /\ type_map types (FIELD_TYPE.NEWDECIMAL types) = "DOUBLE"
  /\ type_map types (FIELD_TYPE.DOUBLE types) = "DOUBLE"
  /\ type_map types (FIELD_TYPE.FLOAT types) = "DOUBLE"
  /\ type_map types (FIELD_TYPE.INT24 types) = "INT"
  /\ type_map types (FIELD_TYPE.LONG types) = "BIGINT"
  /\ type_map types (FIELD_TYPE.LONGLONG types) = "DECIMAL(38,0)"
  /\ type_map types (FIELD_TYPE.SHORT types) = "INT"
  /\ type_map types (FIELD_TYPE.TINY types) = "SMALLINT"
  /\ type_map types (FIELD_TYPE.YEAR types) = "INT"
  /\ type_map types (FIELD_TYPE.TIMESTAMP types) = "TIMESTAMP"
  /\ forall mysql_type : Z,
       mysql_type ∉ FIELD_TYPE.mapped types -> type_map types mysql_type = "STRING".
Proof.
  intros Hnd. unfold type_map.
  repeat split;
    try (apply dict_get_literal_in; [exact Hnd | set_solver]).
  intros c Hc. by apply dict_get_literal_default.
Qed.

(** The codes MySQLdb exports are distinct, so the table holds for them. *)
Lemma type_map_table_MySQLdb :
  NoDup (FIELD_TYPE.mapped FIELD_TYPE.MySQLdb)
  /\ type_map FIELD_TYPE.MySQLdb 16 = "INT"
  /\ type_map FIELD_TYPE.MySQLdb 8 = "DECIMAL(38,0)"
  /\ type_map FIELD_TYPE.MySQLdb 9999 = "STRING".
Proof.
  assert (Hnd : NoDup (FIELD_TYPE.mapped FIELD_TYPE.MySQLdb))
    by (apply (bool_decide_unpack _); vm_compute; exact I).
  split; [exact Hnd|].
  pose proof (type_map_table FIELD_TYPE.MySQLdb Hnd) as HT.
  split; [apply HT|]. split; [apply HT|].
  apply HT. apply (bool_decide_unpack _). vm_compute. exact I.
Defined.

(** C8: [type_map] is defined on every integer and its answer is one of the
    seven Hive type names; the lookup is [dict.get] with a default, so no
    key can make it raise, and the function reads and writes no state. *)
Theorem type_map_total (types : FIELD_TYPE.t) (mysql_type : Z) :
  type_map types mysql_type ∈ hive_types.
Proof.
  unfold type_map.
  match goal with |- Py.dict_get (Py.dict_literal ?l) _ _ ∈ _ =>
    destruct (dict_get_literal_cases l mysql_type "STRING") as [->|Hin]
  end.
  - unfold hive_types. set_solver.
  - revert Hin.
    generalize (Py.dict_get
      (Py.dict_literal
         [(FIELD_TYPE.BIT types, "INT"); (FIELD_TYPE.DECIMAL types, "DOUBLE");
          (FIELD_TYPE.NEWDECIMAL types, "DOUBLE"); (FIELD_TYPE.DOUBLE types, "DOUBLE");
          (FIELD_TYPE.FLOAT types, "DOUBLE"); (FIELD_TYPE.INT24 types, "INT");
          (FIELD_TYPE.LONG types, "BIGINT"); (FIELD_TYPE.LONGLONG types, "DECIMAL(38,0)");
          (FIELD_TYPE.SHORT types, "INT"); (FIELD_TYPE.TINY types, "SMALLINT");
          (FIELD_TYPE.YEAR types, "INT"); (FIELD_TYPE.TIMESTAMP types, "TIMESTAMP")])
      mysql_type "STRING").
    intros s Hin. unfold hive_types.
    repeat (apply elem_of_cons in Hin as [Hin|Hin];
            [injection Hin as _ ->; set_solver|]).
    by apply elem_of_nil in Hin.
Qed.

(** [type_map] answers "STRING" on the codes outside its table and on no
    other, whatever the twelve codes are. *)
Theorem type_map_string_iff (types : FIELD_TYPE.t) (mysql_type : Z) :
  type_map types mysql_type = "STRING" <-> mysql_type ∉ FIELD_TYPE.mapped types.
Proof.
  unfold type_map. split.
  - intros Hs Hin.
    match goal with H : Py.dict_get (Py.dict_literal ?l) _ _ = _ |- _ =>
      pose proof (dict_get_literal_mapped l mysql_type "STRING" Hin) as Hl
    end.
    rewrite Hs in Hl.
    repeat (apply elem_of_cons in Hl as [Hl|Hl]; [discriminate Hl|]).
    by apply elem_of_nil in Hl.
  - intros Hout. by apply dict_get_literal_default.
Qed.

(** Which codes end as which Hive type, when the twelve codes are pairwise
    distinct: the table of [type_map] read from right to left. *)
Theorem type_map_preimages (types : FIELD_TYPE.t) (mysql_type : Z) :
  NoDup (FIELD_TYPE.mapped types) ->
  (type_map types mysql_type = "INT"
   <-> mysql_type ∈ [FIELD_TYPE.BIT types; FIELD_TYPE.INT24 types;
                     FIELD_TYPE.SHORT types; FIELD_TYPE.YEAR types])
  /\ (type_map types mysql_type = "DOUBLE"
      <-> mysql_type ∈ [FIELD_TYPE.DECIMAL types; FIELD_TYPE.NEWDECIMAL types;
                        FIELD_TYPE.DOUBLE types; FIELD_TYPE.FLOAT types])
  /\ (type_map types mysql_type = "BIGINT" <-> mysql_type = FIELD_TYPE.LONG types)
  /\ (type_map types mysql_type = "DECIMAL(38,0)"
      <-> mysql_type = FIELD_TYPE.LONGLONG types)
  /\ (type_map types mysql_type = "SMALLINT" <-> mysql_type = FIELD_TYPE.TINY types)
  /\ (type_map types mysql_type = "TIMESTAMP"
      <-> mysql_type = FIELD_TYPE.TIMESTAMP types).
Proof.
  intros Hnd. unfold type_map.
  match goal with |- context [Py.dict_literal ?l] =>
    pose proof (dict_get_literal_cases l mysql_type "STRING") as Hcases;
    assert (Hin : forall c t, (c, t) ∈ l ->
                    Py.dict_get (Py.dict_literal l) c "STRING" = t)
      by (intros c t Hct; by apply dict_get_literal_in)
  end.
  repeat split; intros Hc;
    try (rewrite Hc in Hcases; destruct Hcases as [Hcases|Hcases];
         [discriminate Hcases|];
         repeat (apply elem_of_cons in Hcases as [Hcases|Hcases];
                 [first [discriminate Hcases
                        | injection Hcases as ->; in_list
                        | by injection Hcases]|]);
         by apply elem_of_nil in Hcases);
    try (subst mysql_type; apply Hin; in_list);
    repeat (apply elem_of_cons in Hc as [->|Hc]; [apply Hin; in_list|]);
    by apply elem_of_nil in Hc.
Qed.

(** ** [init] *)

(** [quoting or csv.QUOTE_MINIMAL] keeps the quoting [init] is given and
    takes QUOTE_MINIMAL when it is given none: QUOTE_MINIMAL is 0, the one
    quoting that is falsy, so the [or] never changes a quoting. *)
Theorem init_quoting (a : init_args) :
  quoting (init a) = default QUOTE_MINIMAL (a_quoting a).
Proof.
  unfold init, Py.truthy_int. simpl.
  destruct (a_quoting a) as [z|]; [|done]. simpl.
  destruct (Z.eqb_spec z 0) as [->|]; done.
Qed.


(** ** Ordered dicts and the Field Dictionary *)

Section OrderedDictFacts.
Context {V : Type}.
Implicit Types (d : Py.OrderedDict V) (k : string) (v : V).

Lemma od_setitem_fresh d k v :
  k ∉ Py.od_keys d -> Py.od_setitem d k v = d ++ [(k, v)].
Proof.
  induction d as [|[k' v'] d IH]; intros Hk; simpl in *; [done|].
  apply not_elem_of_cons in Hk as [Hne Hk].
  destruct (decide (k' = k)); [congruence|]. by rewrite IH.
Qed.

Lemma od_get_setitem d k v k' :
  Py.od_get (Py.od_setitem d k v) k' = if decide (k = k') then Some v else Py.od_get d k'.
Proof.
  induction d as [|[k0 v0] d IH]; simpl.
  - by destruct (decide (k = k')).
  - destruct (decide (k0 = k)) as [->|Hne]; simpl.
    + by destruct (decide (k = k')).
    + destruct (decide (k0 = k')) as [->|Hne'].
      * by destruct (decide (k = k')); [congruence|].
      * apply IH.
Qed.

Lemma od_keys_setitem d k v :
  Py.od_keys (Py.od_setitem d k v)
  = if decide (k ∈ Py.od_keys d) then Py.od_keys d else Py.od_keys d ++ [k].
Proof.
  induction d as [|[k0 v0] d IH]; simpl.
  - destruct (decide (k ∈ [])) as [Hin|]; [by apply elem_of_nil in Hin|done].
  - destruct (decide (k0 = k)) as [->|Hne]; simpl.
    + destruct (decide (k ∈ k :: Py.od_keys d)) as [|Hn]; [done|].
      exfalso. apply Hn. apply list_elem_of_here.
    + rewrite IH.
      destruct (decide (k ∈ Py.od_keys d)) as [Hin|Hin];
        destruct (decide (k ∈ k0 :: Py.od_keys d)) as [Hin'|Hin']; try done.
      * exfalso. apply Hin'. by apply list_elem_of_further.
      * exfalso. apply elem_of_cons in Hin' as [?|?]; [congruence|done].
Qed.

Lemma od_keys_setitem_NoDup d k v :
  NoDup (Py.od_keys d) -> NoDup (Py.od_keys (Py.od_setitem d k v)).
Proof.
  intros Hnd. rewrite od_keys_setitem. destruct (decide _) as [|Hn]; [done|].
  apply NoDup_app. split; [done|]. split; [|apply NoDup_singleton].
  intros x Hx Hx'. apply list_elem_of_singleton in Hx'. by subst.
Qed.

Lemma od_keys_setitem_elem d k v x :
  x ∈ Py.od_keys (Py.od_setitem d k v) <-> x = k \/ x ∈ Py.od_keys d.
Proof.
  rewrite od_keys_setitem. destruct (decide _) as [Hin|Hn].
  - split; [by right|]. by intros [->|?].
  - rewrite elem_of_app, list_elem_of_singleton. tauto.
Qed.

Lemma od_filter_absent d k :
  k ∉ Py.od_keys d -> filter (fun e => e.1 = k) d = [].
Proof.
  induction d as [|[k0 v0] d IH]; intros Hk; [done|].
  apply not_elem_of_cons in Hk as [Hne Hk].
  simpl in Hne. rewrite filter_cons_False by (simpl; congruence). by apply IH.
Qed.

(** A key that occurs once among the keys labels exactly one entry. *)
Lemma od_entry_unique d k :
  NoDup (Py.od_keys d) -> k ∈ Py.od_keys d ->
  length (filter (fun e => e.1 = k) d) = 1.
Proof.
  induction d as [|[k0 v0] d IH]; intros Hnd Hin.
  - by apply elem_of_nil in Hin.
  - apply NoDup_cons in Hnd as [Hk0 Hnd].
    destruct (decide (k0 = k)) as [->|Hne].
    + rewrite filter_cons_True by done. simpl.
      by rewrite od_filter_absent.
    + rewrite filter_cons_False by done.
      apply IH; [done|]. apply elem_of_cons in Hin as [Heq|?]; [|done].
      simpl in Heq. congruence.
Qed.

End OrderedDictFacts.

Section FieldDict.
Variable types : FIELD_TYPE.t.

(** One turn of the loop of lines 157-158. *)
Local Abbreviation turn :=
  (fun field_dict f =>
     Py.od_setitem field_dict (f_name f) (type_map types (f_type_code f))).

Local Abbreviation column := (fun f => (f_name f, type_map types (f_type_code f))).

Lemma field_dict_loop_distinct (description : list field) (acc : Py.OrderedDict string) :
  NoDup (Py.od_keys acc ++ (f_name <$> description)) ->
  foldl turn acc description = acc ++ (column <$> description).
Proof.
  revert acc. induction description as [|f description IH]; intros acc Hnd; simpl.
  - by rewrite app_nil_r.
  - assert (Hf : f_name f ∉ Py.od_keys acc).
    { apply NoDup_app in Hnd as (_ & Hdisj & _). intros Hin.
      apply (Hdisj _ Hin). apply list_elem_of_here. }
    rewrite od_setitem_fresh by done.
    rewrite IH.
    + by rewrite <- app_assoc.
    + unfold Py.od_keys. rewrite fmap_app. simpl. by rewrite <- app_assoc.
Qed.

Lemma field_dict_loop_get (description : list field) (acc : Py.OrderedDict string) (n : string) :
  Py.od_get (foldl turn acc description) n
  = match last (filter (fun f => f_name f = n) description) with
    | Some f => Some (type_map types (f_type_code f))
    | None => Py.od_get acc n
    end.
Proof.
  revert acc. induction description as [|f description IH]; intros acc; simpl; [done|].
  rewrite IH, filter_cons. destruct (decide (f_name f = n)) as [Hn|Hn].
  - rewrite last_cons. destruct (last _); [done|].
    rewrite od_get_setitem. by destruct (decide _).
  - destruct (last _); [done|].
    rewrite od_get_setitem. by destruct (decide _).
Qed.

Lemma field_dict_loop_NoDup (description : list field) (acc : Py.OrderedDict string) :
  NoDup (Py.od_keys acc) -> NoDup (Py.od_keys (foldl turn acc description)).
Proof.
  revert acc. induction description as [|f description IH]; intros acc Hnd; simpl; [done|].
  apply IH. by apply od_keys_setitem_NoDup.
Qed.

Lemma field_dict_loop_keys (description : list field) (acc : Py.OrderedDict string) (n : string) :
  n ∈ Py.od_keys (foldl turn acc description)
  <-> n ∈ Py.od_keys acc \/ n ∈ (f_name <$> description).
Proof.
  revert acc. induction description as [|f description IH]; intros acc; simpl.
  - rewrite elem_of_nil. tauto.
  - rewrite IH, od_keys_setitem_elem, elem_of_cons. tauto.
Qed.

End FieldDict.

(** *** The claims about the Field Dictionary *)

(** A duplicate-free list whose elements all occur in another one is no
    longer than it, and as long only if the other has no duplicate either. *)
Lemma NoDup_within_length {A} (l k : list A) :
  NoDup l -> (forall x, x ∈ l -> x ∈ k) ->
  length l <= length k /\ (length l = length k -> NoDup k).
Proof.
  intros Hnd Hin.
  assert (Hsub : l ⊆+ k) by (by apply NoDup_submseteq).
  split; [by apply submseteq_length|].
  intros Heq. rewrite <- (submseteq_length_Permutation l k); [done|done|lia].
Qed.

Section FieldDictClaims.
Variable types : FIELD_TYPE.t.

(** C2 (as amended): when the column names of the cursor metadata are
    pairwise distinct, the Field Dictionary is the list of the columns in
    their order, each name with the Hive type of its column. *)
Theorem field_dict_column_order (description : list field) :
  NoDup (f_name <$> description) ->
  build_field_dict types description
  = (fun f => (f_name f, type_map types (f_type_code f))) <$> description.
Proof.
  intros Hnd. unfold build_field_dict.
  by rewrite field_dict_loop_distinct.
Qed.

(** C9: when two columns of the cursor metadata have the same name, the
    Field Dictionary has exactly one entry under that name, its type is the
    one of the last column of that name, and the dictionary has fewer
    entries than there are columns. *)
Theorem field_dict_last_wins (description : list field) (i j : nat) (fi fj : field) :
  description !! i = Some fi ->
  description !! j = Some fj ->
  i <> j ->
  f_name fi = f_name fj ->
  let field_dict := build_field_dict types description in
  length (filter (fun e => e.1 = f_name fi) field_dict) = 1
  /\ (exists f,
        last (filter (fun f => f_name f = f_name fi) description) = Some f
        /\ Py.od_get field_dict (f_name fi) = Some (type_map types (f_type_code f)))
  /\ length field_dict < length description.
Proof.
  intros Hi Hj Hij Hname field_dict. subst field_dict. unfold build_field_dict.
  assert (Hnd : NoDup (Py.od_keys
                  (foldl (fun field_dict f =>
                            Py.od_setitem field_dict (f_name f)
                              (type_map types (f_type_code f))) [] description))).
  { apply field_dict_loop_NoDup. apply NoDup_nil_2. }
  assert (Hin : fi ∈ description) by (by eapply list_elem_of_lookup_2).
  split; [|split].
  - apply od_entry_unique; [done|].
    apply field_dict_loop_keys. right. by apply list_elem_of_fmap_2.
  - rewrite field_dict_loop_get.
    destruct (last (filter (fun f => f_name f = f_name fi) description))
      as [f|] eqn:Hlast; [by exists f|].
    apply last_None in Hlast.
    assert (Hfi : fi ∈ filter (fun f => f_name f = f_name fi) description)
      by (by apply list_elem_of_filter).
    rewrite Hlast in Hfi. by apply elem_of_nil in Hfi.
  - set (fd := foldl _ [] description) in *.
    destruct (NoDup_within_length (Py.od_keys fd) (f_name <$> description) Hnd)
      as [Hle Heq].
    { intros n Hn. apply field_dict_loop_keys in Hn as [Hn|Hn]; [|done].
      by apply elem_of_nil in Hn. }
    unfold Py.od_keys in Hle, Heq. rewrite !length_fmap in Hle, Heq.
    destruct (decide (length fd = length description)) as [Hlen|]; [|lia].
    exfalso. apply Hij.
    apply (NoDup_lookup _ i j (f_name fi) (Heq Hlen)).
    + by rewrite list_lookup_fmap, Hi.
    + by rewrite list_lookup_fmap, Hj, Hname.
Qed.

(** The keys of the Field Dictionary are the column names, each once. *)
Theorem field_dict_keys (description : list field) :
  NoDup (Py.od_keys (build_field_dict types description))
  /\ forall n, n ∈ Py.od_keys (build_field_dict types description)
               <-> n ∈ (f_name <$> description).
Proof.
  unfold build_field_dict. split.
  - apply field_dict_loop_NoDup. apply NoDup_nil_2.
  - intros n. rewrite field_dict_loop_keys. rewrite elem_of_nil. tauto.
Qed.

(** Looking a name up in the Field Dictionary gives the Hive type of the
    last column of that name, and nothing for a name no column has. *)
Theorem field_dict_lookup (description : list field) (n : string) :
  Py.od_get (build_field_dict types description) n
  = (fun f => type_map types (f_type_code f))
      <$> last (filter (fun f => f_name f = n) description).
Proof.
  unfold build_field_dict. rewrite field_dict_loop_get.
  by destruct (last _).
Qed.

(** The Field Dictionary never has more entries than the cursor has
    columns, and has as many exactly when no two columns share a name. *)
Theorem field_dict_length (description : list field) :
  length (build_field_dict types description) <= length description
  /\ (length (build_field_dict types description) = length description
      <-> NoDup (f_name <$> description)).
Proof.
  unfold build_field_dict.
  set (fd := foldl _ [] description).
  assert (Hnd : NoDup (Py.od_keys fd)).
  { apply field_dict_loop_NoDup. apply NoDup_nil_2. }
  destruct (NoDup_within_length (Py.od_keys fd) (f_name <$> description) Hnd)
    as [Hle Heq].
  { intros n Hn. apply field_dict_loop_keys in Hn as [Hn|Hn]; [|done].
    by apply elem_of_nil in Hn. }
  unfold Py.od_keys in Hle, Heq. rewrite !length_fmap in Hle, Heq.
  split; [done|]. split; [done|].
  intros Hnames. subst fd. rewrite field_dict_loop_distinct by done.
  simpl. apply length_fmap.
Qed.

End FieldDictClaims.

(** ** Runs of [execute] *)

Lemma string_app_cons (a : ascii) (s t : string) :
  String a s +:+ t = String a (s +:+ t).
Proof. reflexivity. Qed.

Lemma string_app_nil_r (s : string) : s +:+ "" = s.
Proof. induction s as [|a s IH]; [done|]. by rewrite string_app_cons, IH. Qed.

Lemma string_app_assoc (s t u : string) : (s +:+ t) +:+ u = s +:+ (t +:+ u).
Proof. induction s as [|a s IH]; [done|]. by rewrite !string_app_cons, IH. Qed.

(** Two worlds with the same six parts are the same world. *)
Lemma world_eq (a b : Run.World) :
  Run.conn a = Run.conn b -> Run.cursor a = Run.cursor b ->
  Run.fs a = Run.fs b -> Run.handles a = Run.handles b ->
  Run.warehouse a = Run.warehouse b -> Run.trace a = Run.trace b ->
  a = b.
Proof. destruct a, b. simpl. by intros -> -> -> -> -> ->. Qed.

Section RunFacts.
Import Run.
Context {value : Type}.
Variable types : FIELD_TYPE.t.
Variable fault : step -> option exn.
Variable mysql_result : string -> option (list field) * list (list value).
Variable csv_writer : csv_kwargs -> result (list value -> result string).

(** What [writerows] does: it writes the records of the first rows, of all
    of them when it returns, and touches nothing but the buffer of [f];
    when it raises, the exception is that of a call or of the writer on one
    of the rows. *)
Lemma writerows_inv f (writerow : list value -> result string) rows k w w' r buf :
  writerows fault f writerow k rows w = (w', r) ->
  handles w !! f = Some buf ->
  exists lines,
    trace w' = trace w ++ (EvWrite f <$> lines)
    /\ conn w' = conn w /\ cursor w' = cursor w /\ fs w' = fs w
    /\ warehouse w' = warehouse w
    /\ handles w' = <[f := buf +:+ String.concat "" lines]> (handles w)
    /\ Forall2 (fun row line => writerow row = Ok line)
               (take (length lines) rows) lines
    /\ match r with
       | Ok _ => Forall2 (fun row line => writerow row = Ok line) rows lines
       | Raise e => (exists s, fault s = Some e)
                    \/ (exists row, row ∈ rows /\ writerow row = Raise e)
       end.
Proof.
  revert k w buf. induction rows as [|row rows IH]; intros k w buf Hrun Hbuf; simpl in Hrun.
  - injection Hrun as <- <-. exists []. simpl.
    rewrite app_nil_r, string_app_nil_r, insert_id by done. repeat split; constructor.
  - unfold bind, call_, call, lift in Hrun.
    destruct (fault (SFetch k)) eqn:Hfetch.
    { injection Hrun as <- <-. exists []. simpl.
      rewrite app_nil_r, string_app_nil_r, insert_id by done.
      repeat split; [constructor|]. left. eauto. }
    destruct (writerow row) as [line|e] eqn:Hrow.
    2:{ injection Hrun as <- <-. exists []. simpl.
        rewrite app_nil_r, string_app_nil_r, insert_id by done.
        repeat split; [constructor|]. right. exists row. split; [in_list|done]. }
    destruct (fault (SWrite k)) eqn:Hwrite.
    { injection Hrun as <- <-. exists []. simpl.
      rewrite app_nil_r, string_app_nil_r, insert_id by done.
      repeat split; [constructor|]. left. eauto. }
    fold (@writerows value fault) in Hrun.
    apply (IH _ _ (buf +:+ line)) in Hrun
      as (lines & Htr & ? & ? & ? & ? & Hh & Hpre & Hr).
    2:{ simpl. unfold Py.dict_get. rewrite Hbuf. apply lookup_insert_eq. }
    exists (line :: lines). simpl in *.
    rewrite Htr, <- app_assoc. repeat split; try done.
    + rewrite Hh. unfold Py.dict_get. rewrite Hbuf, insert_insert_eq.
      f_equal. destruct lines; simpl.
      * by rewrite string_app_nil_r.
      * by rewrite string_app_assoc.
    + by constructor.
    + destruct r as [[]|e]; [by constructor|].
      destruct Hr as [?|(row' & Hin & ?)]; [by left|].
      right. exists row'. split; [in_list|done].
Qed.

Lemma load_file_inv a w w' r :
  load_file fault a w = (w', r) ->
  trace w' = trace w ++ [EvLoadFile a]
  /\ conn w' = conn w /\ cursor w' = cursor w /\ fs w' = fs w
  /\ handles w' = handles w.
Proof.
  unfold load_file, bind, call_, ret.
  destruct (negb (la_create a || la_recreate a) && _).
  { intros [= <- <-]. done. }
  destruct (la_recreate a), (la_create a); simpl;
    repeat (destruct (fault _); simpl; try (intros [= <- <-]; done));
    unfold create_table, load_data; simpl;
    repeat (match goal with
            | |- context [match ?x with _ => _ end] => destruct x; simpl
            end; try (intros [= <- <-]; done)).
Qed.

Lemma load_file_absent a w :
  la_create a = false -> la_recreate a = false ->
  warehouse w !! la_table a = None ->
  load_file fault a w = (emit (EvLoadFile a) w, Raise TableNotFoundError).
Proof.
  intros Hc Hr Ht. unfold load_file. rewrite Hc, Hr. simpl.
  by rewrite Ht, bool_decide_eq_true_2.
Qed.

(** Leaving the [with] block: the file object is closed; the file is
    removed, and the result of the block kept, unless closing raises. *)
Lemma tmp_exit_inv {A} f (w2 : World) (r2 : result A) w' r :
  tmp_exit fault f w2 r2 = (w', r) ->
  trace w' = trace w2
             ++ match fault STmpClose with Some _ => [] | None => [EvTmpClose f] end
  /\ conn w' = conn w2 /\ cursor w' = cursor w2
  /\ warehouse w' = warehouse w2
  /\ handles w' = delete f (handles w2)
  /\ fs w' = match fault STmpClose with
             | Some _ => fs w2
             | None => delete f (fs w2)
             end
  /\ r = match fault STmpClose with Some e => Raise e | None => r2 end.
Proof.
  unfold tmp_exit. destruct (fault STmpClose); intros [= <- <-]; simpl;
    by rewrite ?app_nil_r.
Qed.

Local Abbreviation kwargs self :=
  {| kw_delimiter := delimiter self; kw_quoting := quoting self;
     kw_quotechar := quotechar self; kw_escapechar := escapechar self |}.

Local Abbreviation args self f field_dict :=
  {| la_filepath := f; la_table := hive_table self; la_field_dict := field_dict;
     la_create := create self; la_partition := partition self;
     la_delimiter := delimiter self; la_recreate := recreate self;
     la_tblproperties := tblproperties self |}.

(** The calls up to the creation of the temporary file [f], the calls from
    there to [hive.load_file], [lines] being the records written, and the
    call that leaves the block, recorded when it went through. *)
Local Abbreviation prelude self f :=
  [EvHiveCliHook; EvMySqlHook; EvGetConn; EvCursor; EvExecute (sql self);
   EvTmpCreate f].

Local Abbreviation staging f lines :=
  ((EvWrite f <$> lines) ++ [EvFlush f; EvCursorClose; EvConnClose]).

Local Abbreviation closing f :=
  (match fault STmpClose with Some _ => [] | None => [EvTmpClose f] end).

(** Every run of [execute]: either it raised without calling the loader,
    the warehouse untouched, the connection not closed, and the temporary
    file, if it was created, closed and, unless closing raised, removed; or
    it is the call of [hive.load_file] in the world [at_load], followed by
    the exit from the [with] block. *)
Lemma execute_inv self w w' r :
  execute types fault mysql_result csv_writer self w = (w', r) ->
  let f := fresh (dom (fs w)) in
  (exists tr e,
     trace w' = trace w ++ tr /\ no_load tr
     /\ warehouse w' = warehouse w /\ r = Raise e
     /\ (EvGetConn ∈ tr -> conn w' = Opened)
     /\ (EvGetConn ∉ tr -> conn w' = conn w)
     /\ (EvCursor ∈ tr -> EvCursorClose ∉ tr -> cursor w' = Opened)
     /\ (EvConnClose ∉ tr)
     /\ (((forall g, EvTmpCreate g ∉ tr)
          /\ fs w' = fs w /\ handles w' = handles w)
         \/ (exists tr2 d,
               tr = prelude self f ++ tr2 ++ closing f
               /\ (forall g, EvTmpCreate g ∉ tr2)
               /\ (forall g, EvTmpClose g ∉ tr2)
               /\ handles w' = delete f (handles w)
               /\ fs w' = match fault STmpClose with
                          | Some _ => <[f := d]> (fs w)
                          | None => fs w
                          end
               /\ (forall e', fault STmpClose = Some e' -> r = Raise e'))))
  \/ (exists writerow description lines,
        csv_writer (kwargs self) = Ok writerow
        /\ (mysql_result (sql self)).1 = Some description
        /\ Forall2 (fun row line => writerow row = Ok line)
                   (mysql_result (sql self)).2 lines
        /\ (w', r)
           = tmp_exit fault f
               (load_file fault (args self f (build_field_dict types description))
                  (at_load self w f lines)).1
               (load_file fault (args self f (build_field_dict types description))
                  (at_load self w f lines)).2).
Proof.
  intros Hrun f.
  unfold execute, bind, call, with_NamedTemporaryFile, lift, raise, ret in Hrun.
  destruct (fault SHiveCliHook).
  { injection Hrun as <- <-. left. exists [], e.
    rewrite app_nil_r. repeat split; [no_load_events|trace_mem..|left].
    split; [not_in_trace|by split]. }
  destruct (fault SMySqlHook).
  { injection Hrun as <- <-. left. eexists _, e.
    simpl. repeat split; [no_load_events|trace_mem..|left].
    split; [not_in_trace|by split]. }
  destruct (fault SGetConn).
  { injection Hrun as <- <-. left. eexists _, e.
    simpl. rewrite <- !app_assoc. repeat split; [no_load_events|trace_mem..|left].
    split; [not_in_trace|by split]. }
  destruct (fault SCursor).
  { injection Hrun as <- <-. left. eexists _, e.
    simpl. rewrite <- !app_assoc. repeat split; [no_load_events|trace_mem..|left].
    split; [not_in_trace|by split]. }
  destruct (fault SExecute).
  { injection Hrun as <- <-. left. eexists _, e.
    simpl. rewrite <- !app_assoc. repeat split; [no_load_events|trace_mem..|left].
    split; [not_in_trace|by split]. }
  destruct (fault STmpCreate).
  { injection Hrun as <- <-. left. eexists _, e.
    simpl. rewrite <- !app_assoc. repeat split; [no_load_events|trace_mem..|left].
    split; [not_in_trace|by split]. }
  simpl in Hrun. fold f in Hrun.
  assert (Hfresh : fs w !! f = None).
  { apply not_elem_of_dom. apply is_fresh. }
  set (w1 := emit (EvTmpCreate f) _) in Hrun.
  match goal with |- ?G =>
    assert (Hfail : forall (w2 : World) e2 tr2 b d,
      trace w2 = trace w ++ prelude self f ++ tr2 -> no_load tr2 ->
      (forall g, EvTmpCreate g ∉ tr2) ->
      (forall g, EvTmpClose g ∉ tr2) ->
      EvConnClose ∉ tr2 ->
      fs w2 = <[f := d]> (fs w) ->
      handles w2 = <[f := b]> (handles w) ->
      warehouse w2 = warehouse w ->
      conn w2 = Opened ->
      (EvCursorClose ∉ tr2 -> cursor w2 = Opened) ->
      tmp_exit fault f w2 (Raise e2) = (w', r) -> G)
  end.
  { intros w2 e2 tr2 b d Htr Hnl Hcreate Hclosed Hcc Hfs2 Hh Hwh Hconn Hcur Hc.
    apply tmp_exit_inv in Hc as (Htr' & Hconn' & Hcur' & Hwh' & Hh' & Hfs' & Hr).
    left. exists (prelude self f ++ tr2 ++ closing f).
    exists (match fault STmpClose with Some e => e | None => e2 end).
    split. { rewrite Htr', Htr, <- !app_assoc. done. }
    split. { destruct (fault STmpClose); no_load_events. }
    split; [congruence|].
    split. { rewrite Hr. by destruct (fault STmpClose). }
    split; [intros _; congruence|].
    split. { intros Hn. exfalso. apply Hn. in_list. }
    split. { intros _ Hn. rewrite Hcur'. apply Hcur. intros Hin. apply Hn. in_list. }
    split. { not_in_trace. }
    right. exists tr2, d. split; [done|]. split; [done|]. split; [done|].
    split. { by rewrite Hh', Hh, delete_insert_eq. }
    split. { rewrite Hfs', Hfs2. destruct (fault STmpClose); [done|].
             by rewrite delete_insert_eq, delete_id. }
    intros e' He'. rewrite Hr. by rewrite He'. }
  assert (Hw1 : trace w1 = trace w ++ prelude self f ++ []
                /\ fs w1 = <[f := ""]> (fs w)
                /\ handles w1 = <[f := ""]> (handles w)
                /\ warehouse w1 = warehouse w
                /\ conn w1 = Opened /\ cursor w1 = Opened).
  { subst w1. simpl. by rewrite <- !app_assoc. }
  destruct Hw1 as (Htr1 & Hfs1 & Hh1 & Hwh1 & Hconn1 & Hcur1).
  clearbody w1.
  destruct (csv_writer (kwargs self)) as [writerow|e0] eqn:Hcsv.
  2:{ eapply Hfail;
        [exact Htr1|no_load_events|not_in_trace..|exact Hfs1|exact Hh1|exact Hwh1
        |done|done|exact Hrun]. }
  destruct (mysql_result (sql self)).1 as [description|] eqn:Hdesc.
  2:{ eapply Hfail;
        [exact Htr1|no_load_events|not_in_trace..|exact Hfs1|exact Hh1|exact Hwh1
        |done|done|exact Hrun]. }
  destruct (writerows fault f writerow 0 (mysql_result (sql self)).2 w1)
    as [w3 r3] eqn:Hrows.
  apply (writerows_inv _ _ _ _ _ _ _ "") in Hrows
    as (lines & Htr3 & Hconn3 & Hcur3 & Hfs3 & Hwh3 & Hh3 & _ & Hok3).
  2:{ rewrite Hh1. apply lookup_insert_eq. }
  rewrite Hh1, insert_insert_eq in Hh3.
  change ("" +:+ String.concat "" lines) with (String.concat "" lines) in Hh3.
  rewrite Htr1, app_nil_r, <- app_assoc in Htr3.
  rewrite Hconn1 in Hconn3. rewrite Hcur1 in Hcur3.
  rewrite Hfs1 in Hfs3.
  assert (Hwh3' : warehouse w3 = warehouse w) by congruence.
  destruct r3 as [[]|e3].
  2:{ eapply Hfail;
        [exact Htr3|no_load_events|not_in_trace..|exact Hfs3|exact Hh3|exact Hwh3'
        |done|done|exact Hrun]. }
  destruct (fault SFlush) as [e4|].
  { eapply Hfail;
      [exact Htr3|no_load_events|not_in_trace..|exact Hfs3|exact Hh3|exact Hwh3'
      |done|done|exact Hrun]. }
  set (w4 := emit (EvFlush f) (tmp_flush f w3)) in Hrun.
  assert (Hw4 : trace w4 = trace w ++ prelude self f
                  ++ (EvWrite f <$> lines) ++ [EvFlush f]
                /\ fs w4 = <[f := String.concat "" lines]> (fs w)
                /\ handles w4 = <[f := ""]> (handles w)
                /\ warehouse w4 = warehouse w
                /\ conn w4 = Opened /\ cursor w4 = Opened).
  { subst w4. simpl. rewrite Htr3, Hfs3, Hh3, Hwh3'.
    unfold Py.dict_get. rewrite !lookup_insert_eq, !insert_insert_eq.
    by rewrite <- !app_assoc. }
  destruct Hw4 as (Htr4 & Hfs4 & Hh4 & Hwh4 & Hconn4 & Hcur4).
  clearbody w4.
  destruct (fault SCursorClose) as [e5|].
  { eapply Hfail;
      [exact Htr4|no_load_events|not_in_trace..|exact Hfs4|exact Hh4|exact Hwh4
      |done|done|exact Hrun]. }
  destruct (fault SConnClose) as [e6|].
  { eapply (Hfail (emit EvCursorClose (set_cursor Closed w4)) e6
                  ((EvWrite f <$> lines) ++ [EvFlush f; EvCursorClose]) "");
      [simpl; rewrite Htr4, <- !app_assoc; reflexivity
      |no_load_events|not_in_trace..|simpl; exact Hfs4|simpl; exact Hh4
      |simpl; exact Hwh4|simpl; exact Hconn4| |exact Hrun].
    intros Hn. exfalso. apply Hn. in_list. }
  set (w6 := emit EvConnClose (set_conn Closed (emit EvCursorClose (set_cursor Closed w4))))
    in Hrun.
  assert (Hw6 : w6 = at_load self w f lines).
  { apply world_eq; subst w6; unfold at_load; simpl; try done.
    rewrite Htr4. by rewrite <- !app_assoc. }
  rewrite Hw6 in Hrun.
  right. exists writerow, description, lines.
  split; [done|]. split; [done|]. split; [done|].
  destruct (load_file fault _ _) as [w7 r7]. by simpl.
Qed.

(** A trace without a call of the loader has no [EvLoadFile] to split at. *)
Lemma no_load_elem (tr : list event) (a : load_args) :
  no_load tr -> EvLoadFile a ∉ tr.
Proof.
  unfold no_load. rewrite Forall_forall. intros Hn Hin.
  by apply Hn in Hin.
Qed.

Lemma load_split (l r l' r' : list event) (a a' : load_args) :
  no_load l -> no_load r ->
  l ++ EvLoadFile a :: r = l' ++ EvLoadFile a' :: r' ->
  l = l' /\ a = a' /\ r = r'.
Proof.
  intros Hl Hr. revert l' Hl.
  induction l as [|x l IH]; intros [|y l'] Hl Heq; simpl in Heq.
  - by injection Heq as -> ->.
  - injection Heq as <- ->. exfalso.
    apply (no_load_elem _ a' Hr). in_list.
  - injection Heq as -> _. exfalso.
    apply (no_load_elem _ a' Hl). in_list.
  - injection Heq as -> Heq. apply Forall_cons in Hl as [_ Hl].
    destruct (IH l' Hl Heq) as (-> & -> & ->). done.
Qed.

(** The end of a run that called [hive.load_file]. *)
Lemma loaded_inv self w f lines a w' r :
  fs w !! f = None ->
  (w', r) = tmp_exit fault f (load_file fault a (at_load self w f lines)).1
              (load_file fault a (at_load self w f lines)).2 ->
  trace w' = trace w ++ prelude self f ++ staging f lines
             ++ [EvLoadFile a] ++ closing f
  /\ conn w' = Closed /\ cursor w' = Closed
  /\ handles w' = delete f (handles w)
  /\ fs w' = match fault STmpClose with
             | Some _ => <[f := String.concat "" lines]> (fs w)
             | None => fs w
             end
  /\ warehouse w' = warehouse (load_file fault a (at_load self w f lines)).1
  /\ r = match fault STmpClose with
         | Some e => Raise e
         | None => (load_file fault a (at_load self w f lines)).2
         end.
Proof.
  intros Hfresh Hexit. symmetry in Hexit.
  destruct (load_file fault a (at_load self w f lines)) as [wa rl] eqn:Hload.
  simpl in Hexit.
  apply tmp_exit_inv in Hexit as (Htr & Hconn & Hcur & Hwh & Hh & Hfs & Hr).
  apply load_file_inv in Hload as (Htra & Hconna & Hcura & Hfsa & Hha).
  unfold at_load in Htra, Hconna, Hcura, Hfsa, Hha.
  simpl in Htra, Hconna, Hcura, Hfsa, Hha.
  split. { rewrite Htr, Htra. rewrite <- !app_assoc. simpl.
           by rewrite <- !app_assoc. }
  split; [congruence|]. split; [congruence|].
  split. { by rewrite Hh, Hha, delete_insert_eq. }
  split. { rewrite Hfs, Hfsa. destruct (fault STmpClose); [done|].
           by rewrite delete_insert_eq, delete_id. }
  done.
Qed.

Lemma fresh_file w : fs w !! fresh (dom (fs w)) = None.
Proof. apply not_elem_of_dom. apply is_fresh. Qed.

(** A run in which [hive.load_file] was called went through every line
    before it. *)
Lemma execute_load_inv self w w' r before a after :
  execute types fault mysql_result csv_writer self w = (w', r) ->
  trace w' = trace w ++ before ++ EvLoadFile a :: after ->
  let f := fresh (dom (fs w)) in
  exists writerow description lines wb wa rl,
    csv_writer (kwargs self) = Ok writerow
    /\ (mysql_result (sql self)).1 = Some description
    /\ Forall2 (fun row line => writerow row = Ok line)
               (mysql_result (sql self)).2 lines
    /\ before = prelude self f ++ staging f lines
    /\ a = args self f (build_field_dict types description)
    /\ after = closing f
    /\ conn w' = Closed /\ cursor w' = Closed
    /\ load_file fault a wb = (wa, rl)
    /\ trace wb = trace w ++ before
    /\ warehouse wb = warehouse w
    /\ fs wb !! f = Some (String.concat "" lines)
    /\ handles wb !! f = Some ""
    /\ warehouse w' = warehouse wa
    /\ r = match fault STmpClose with Some e => Raise e | None => rl end
    /\ wb = at_load self w f lines
    /\ handles w' = delete f (handles w)
    /\ fs w' = match fault STmpClose with
               | Some _ => <[f := String.concat "" lines]> (fs w)
               | None => fs w
               end.
Proof.
  intros Hrun Htr f.
  destruct (execute_inv _ _ _ _ Hrun) as [Hfail|Hok].
  - destruct Hfail as (tr & e & Htr' & Hnl & _).
    rewrite Htr' in Htr. apply app_inv_head in Htr. subst tr.
    exfalso. apply (no_load_elem _ a Hnl). in_list.
  - destruct Hok as (writerow & description & lines & Hcsv & Hdesc & Hrows & Hexit).
    fold f in Hexit.
    destruct (loaded_inv _ _ _ _ _ _ _ (fresh_file w) Hexit)
      as (Htr' & Hconn & Hcur & Hh & Hfs & Hwh & Hr).
    fold f in Htr', Hh, Hfs, Hwh, Hr.
    rewrite Htr' in Htr. apply app_inv_head in Htr.
    rewrite (app_assoc (prelude self f)) in Htr.
    apply load_split in Htr as (<- & <- & <-);
      [|no_load_events|destruct (fault STmpClose); no_load_events].
    exists writerow, description, lines, (at_load self w f lines).
    eexists _, _. split; [done|]. split; [done|]. split; [done|].
    split; [done|]. split; [done|]. split; [done|].
    split; [done|]. split; [done|].
    split; [apply surjective_pairing|].
    split. { unfold at_load. simpl. by rewrite <- ?app_assoc. }
    split; [done|].
    split. { unfold at_load. simpl. apply lookup_insert_eq. }
    split. { unfold at_load. simpl. apply lookup_insert_eq. }
    done.
Qed.

(** A run that returns got its result from [hive.load_file]. *)
Lemma execute_ok_inv self w w' :
  execute types fault mysql_result csv_writer self w = (w', Ok tt) ->
  let f := fresh (dom (fs w)) in
  exists writerow description lines,
    csv_writer (kwargs self) = Ok writerow
    /\ (mysql_result (sql self)).1 = Some description
    /\ Forall2 (fun row line => writerow row = Ok line)
               (mysql_result (sql self)).2 lines
    /\ trace w' = trace w ++ prelude self f ++ staging f lines
         ++ [EvLoadFile (args self f (build_field_dict types description));
             EvTmpClose f]
    /\ fault STmpClose = None.
Proof.
  intros Hrun f.
  destruct (execute_inv _ _ _ _ Hrun) as [Hfail|Hok].
  - by destruct Hfail as (tr & e & _ & _ & _ & ? & _).
  - destruct Hok as (writerow & description & lines & Hcsv & Hdesc & Hrows & Hexit).
    fold f in Hexit.
    destruct (loaded_inv _ _ _ _ _ _ _ (fresh_file w) Hexit)
      as (Htr' & _ & _ & _ & _ & _ & Hr).
    fold f in Htr'.
    exists writerow, description, lines.
    destruct (fault STmpClose); [done|]. done.
Qed.

(** *** Reading the trace of the temporary file *)

Lemma pending_flushed f tr :
  pending f (tr ++ [EvFlush f; EvCursorClose; EvConnClose]) = "".
Proof.
  unfold pending. rewrite foldl_app. simpl.
  by destruct (decide (f = f)).
Qed.

Lemma is_open_writes f g lines tr :
  is_open f (tr ++ (EvWrite g <$> lines)) = is_open f tr.
Proof.
  unfold is_open. rewrite foldl_app.
  generalize (foldl
    (fun (o : bool) e =>
       match e with
       | EvTmpCreate g0 => if decide (g0 = f) then true else o
       | EvTmpClose g0 => if decide (g0 = f) then false else o
       | _ => o
       end) false tr).
  induction lines as [|line lines IH]; intros o; simpl; [done|apply IH].
Qed.

Lemma is_open_staged self f lines tr :
  is_open f (tr ++ prelude self f ++ staging f lines) = true.
Proof.
  rewrite !app_assoc.
  assert (Htail : forall tr', is_open f (tr' ++ [EvFlush f; EvCursorClose; EvConnClose])
                              = is_open f tr').
  { intros tr'. unfold is_open. by rewrite foldl_app. }
  rewrite Htail, is_open_writes.
  unfold is_open. rewrite foldl_app. simpl.
  by destruct (decide (f = f)).
Qed.

(** *** The claims about runs *)

(** C4 (as amended): whenever a run hands a file to [hive.load_file], the
    file has been flushed (a flush of it is among the calls before, and
    nothing written to it is pending), but its file object has not been
    released: it is still open, the call being inside the [with] block.
    It is closed when the block is left, which is the only call after the
    load ([closing]: no call is recorded when closing raises). *)
Theorem staged_file_flushed_before_load self w w' r before a after :
  execute types fault mysql_result csv_writer self w = (w', r) ->
  trace w' = trace w ++ before ++ EvLoadFile a :: after ->
  EvFlush (la_filepath a) ∈ before
  /\ pending (la_filepath a) (trace w ++ before) = ""
  /\ is_open (la_filepath a) (trace w ++ before) = true
  /\ after = match fault STmpClose with
             | Some _ => []
             | None => [EvTmpClose (la_filepath a)]
             end
  /\ handles w' !! la_filepath a = None.
Proof.
  intros Hrun Htr.
  destruct (execute_load_inv _ _ _ _ _ _ _ Hrun Htr)
    as (writerow & description & lines & wb & wa & rl & _ & _ & _ & -> & -> & ->
        & _ & _ & _ & _ & _ & _ & _ & _ & _ & _ & Hh & _).
  simpl la_filepath. split; [in_list|].
  split; [|split; [|split; [done|]]].
  - rewrite !app_assoc. apply pending_flushed.
  - apply is_open_staged.
  - rewrite Hh. apply lookup_delete_eq.
Qed.

(** C5 (as amended): a run that returns, or that got as far as calling
    [hive.load_file], has closed the cursor and then the connection, after
    the record of every row of the cursor was written and flushed and
    before that call.  A run that did not get that far has not closed the
    connection: the connection it obtained is left open, and so is its
    cursor unless [cursor.close()] had been called.  Nothing in [execute]
    releases them on an exception. *)
Theorem mysql_closed_before_load self w w' r tr :
  execute types fault mysql_result csv_writer self w = (w', r) ->
  trace w' = trace w ++ tr ->
  let f := fresh (dom (fs w)) in
  ((r = Ok tt \/ exists a, EvLoadFile a ∈ tr) ->
     conn w' = Closed /\ cursor w' = Closed
     /\ exists writerow lines a after,
          csv_writer (kwargs self) = Ok writerow
          /\ Forall2 (fun row line => writerow row = Ok line)
                     (mysql_result (sql self)).2 lines
          /\ tr = [EvHiveCliHook; EvMySqlHook; EvGetConn; EvCursor;
                   EvExecute (sql self); EvTmpCreate f]
                  ++ (EvWrite f <$> lines)
                  ++ [EvFlush f; EvCursorClose; EvConnClose; EvLoadFile a]
                  ++ after)
  /\ ((forall a, EvLoadFile a ∉ tr) ->
        (EvConnClose ∉ tr)
        /\ (EvGetConn ∈ tr -> conn w' = Opened)
        /\ (EvCursor ∈ tr -> EvCursorClose ∉ tr -> cursor w' = Opened)).
Proof.
  intros Hrun Htr f.
  destruct (execute_inv _ _ _ _ Hrun) as [Hfail|Hok].
  - destruct Hfail as (tr' & e & Htr' & Hnl & _ & -> & Hopen & _ & Hcur & Hcc & _).
    rewrite Htr' in Htr. apply app_inv_head in Htr. subst tr'.
    split; [|done].
    intros [?|[a Ha]]; [done|]. by apply (no_load_elem _ a Hnl) in Ha.
  - destruct Hok as (writerow & description & lines & Hcsv & _ & Hrows & Hexit).
    fold f in Hexit.
    destruct (loaded_inv _ _ _ _ _ _ _ (fresh_file w) Hexit)
      as (Htr' & Hconn & Hcur & _).
    fold f in Htr'.
    rewrite Htr' in Htr. apply app_inv_head in Htr. subst tr.
    split.
    + intros _. split; [done|]. split; [done|].
      exists writerow, lines. eexists _, (closing f).
      split; [done|]. split; [done|]. by rewrite <- !app_assoc.
    + intros Hnone. exfalso. eapply Hnone. in_list.
Qed.

(** C6 (as amended): the temporary file a run creates is a new file, and
    when the run ends its file object is closed; unless closing raises, the
    file is gone and the disk is as the run found it, the removal being the
    last call of the run, whether the run returns or raises; when closing
    raises, that is the exception of the run and the file is still on
    disk. *)
Theorem temporary_file_removed self w w' r tr f :
  execute types fault mysql_result csv_writer self w = (w', r) ->
  trace w' = trace w ++ tr ->
  EvTmpCreate f ∈ tr ->
  fs w !! f = None
  /\ handles w' !! f = None
  /\ match fault STmpClose with
     | None => fs w' = fs w /\ fs w' !! f = None /\ last tr = Some (EvTmpClose f)
     | Some e => r = Raise e /\ is_Some (fs w' !! f)
     end.
Proof.
  intros Hrun Htr Hcreate.
  pose proof (fresh_file w) as Hfresh.
  destruct (execute_inv _ _ _ _ Hrun) as [Hfail|Hok].
  - destruct Hfail as (tr' & e & Htr' & _ & _ & _ & _ & _ & _ & _ & Htmp).
    rewrite Htr' in Htr. apply app_inv_head in Htr. subst tr'.
    destruct Htmp as [(Hnone & _)|(tr2 & d & -> & Hnone & _ & Hh & Hfs & Hr)].
    { by apply Hnone in Hcreate. }
    assert (f = fresh (dom (fs w))) as ->.
    { apply elem_of_app in Hcreate as [Hin|Hin]; [|exfalso; revert Hin].
      - repeat (apply elem_of_cons in Hin as [Hin|Hin];
                [first [discriminate Hin|by injection Hin]|]).
        by apply elem_of_nil in Hin.
      - rewrite elem_of_app. intros [Hin|Hin]; [by apply Hnone in Hin|].
        destruct (fault STmpClose); not_in_trace. }
    split; [done|]. split; [rewrite Hh; apply lookup_delete_eq|].
    destruct (fault STmpClose) as [e'|].
    + split; [by apply Hr|]. rewrite Hfs, lookup_insert_eq. by eexists.
    + split; [done|]. split; [by rewrite Hfs|].
      by rewrite !app_assoc, last_snoc.
  - destruct Hok as (writerow & description & lines & _ & _ & _ & Hexit).
    destruct (loaded_inv _ _ _ _ _ _ _ Hfresh Hexit)
      as (Htr' & _ & _ & Hh & Hfs & _ & Hr).
    rewrite Htr' in Htr. apply app_inv_head in Htr. subst tr.
    assert (f = fresh (dom (fs w))) as ->.
    { apply elem_of_app in Hcreate as [Hin|Hin]; [|exfalso; revert Hin].
      - repeat (apply elem_of_cons in Hin as [Hin|Hin];
                [first [discriminate Hin|by injection Hin]|]).
        by apply elem_of_nil in Hin.
      - destruct (fault STmpClose); not_in_trace. }
    split; [done|]. split; [rewrite Hh; apply lookup_delete_eq|].
    destruct (fault STmpClose) as [e'|].
    + split; [done|]. rewrite Hfs, lookup_insert_eq. by eexists.
    + split; [done|]. split; [by rewrite Hfs|].
      by rewrite !app_assoc, last_snoc.
Qed.

(** C7: with [create] and [recreate] off and no such table in the
    warehouse, a run never returns and leaves the warehouse as it was; when
    it gets to [hive.load_file], that call raises TableNotFoundError having
    done nothing but be called, and this is the exception of the run unless
    closing the temporary file raises one of its own. *)
Theorem load_without_table self w w' r :
  create self = false -> recreate self = false ->
  warehouse w !! hive_table self = None ->
  execute types fault mysql_result csv_writer self w = (w', r) ->
  warehouse w' = warehouse w
  /\ (exists e, r = Raise e)
  /\ forall before a after,
       trace w' = trace w ++ before ++ EvLoadFile a :: after ->
       exists wb,
         trace wb = trace w ++ before
         /\ load_file fault a wb = (emit (EvLoadFile a) wb, Raise TableNotFoundError)
         /\ (fault STmpClose = None -> r = Raise TableNotFoundError).
Proof.
  intros Hc Hr Ht Hrun.
  assert (Hload : forall before a after,
    trace w' = trace w ++ before ++ EvLoadFile a :: after ->
    exists wb,
      trace wb = trace w ++ before
      /\ load_file fault a wb = (emit (EvLoadFile a) wb, Raise TableNotFoundError)
      /\ warehouse w' = warehouse w
      /\ r = match fault STmpClose with
             | Some e => Raise e
             | None => Raise TableNotFoundError
             end).
  { intros before a after Htr.
    destruct (execute_load_inv _ _ _ _ _ _ _ Hrun Htr)
      as (writerow & description & lines & wb & wa & rl & _ & _ & _ & _ & Ha & _
          & _ & _ & Hload & Htrb & Hwhb & _ & _ & Hwh & Hres & _).
    assert (Habs : load_file fault a wb
                   = (emit (EvLoadFile a) wb, Raise TableNotFoundError)).
    { apply load_file_absent; rewrite Ha; simpl; [done|done|by rewrite Hwhb]. }
    rewrite Habs in Hload. injection Hload as <- <-.
    exists wb. split; [done|]. split; [done|]. split; [by rewrite Hwh|done]. }
  destruct (execute_inv _ _ _ _ Hrun) as [Hfail|Hok].
  - destruct Hfail as (tr & e & Htr & Hnl & Hwh & -> & _).
    split; [done|]. split; [by exists e|].
    intros before a after Htr'. destruct (Hload _ _ _ Htr') as (wb & ? & ? & ? & Hres).
    exists wb. split; [done|]. split; [done|]. intros Hcl.
    by rewrite Hres, Hcl.
  - destruct Hok as (writerow & description & lines & _ & _ & _ & Hexit).
    destruct (loaded_inv _ _ _ _ _ _ _ (fresh_file w) Hexit) as (Htr & _).
    rewrite (app_assoc (prelude self _)) in Htr.
    destruct (Hload _ _ _ Htr) as (wb' & _ & _ & Hwh & Hres).
    split; [done|]. split.
    { rewrite Hres. destruct (fault STmpClose); eauto. }
    intros before a after Htr'. destruct (Hload _ _ _ Htr') as (wb2 & ? & ? & _ & _).
    exists wb2. split; [done|]. split; [done|]. intros Hcl.
    by rewrite Hres, Hcl.
Qed.

(** C10: the operator [init] builds holds a dict as [partition], the empty
    one when it is given [None] or an empty dict and the given one
    otherwise, and that dict is what a run passes to [hive.load_file]. *)
Theorem partition_is_mapping (a : init_args) w w' r before la after :
  execute types fault mysql_result csv_writer (init a) w = (w', r) ->
  trace w' = trace w ++ before ++ EvLoadFile la :: after ->
  exists d : pdict,
    la_partition la = Some d
    /\ partition (init a) = Some d
    /\ (a_partition a = None \/ a_partition a = Some ∅ -> d = ∅)
    /\ (d <> ∅ -> a_partition a = Some d).
Proof.
  intros Hrun Htr.
  destruct (execute_load_inv _ _ _ _ _ _ _ Hrun Htr)
    as (writerow & description & lines & wb & wa & rl & _ & _ & _ & _ & -> & _).
  simpl. unfold Py.truthy_dict.
  destruct (a_partition a) as [d|].
  - destruct (decide (d = ∅)) as [->|Hd].
    + rewrite bool_decide_eq_true_2 by done. simpl. exists ∅. by repeat split.
    + rewrite bool_decide_eq_false_2 by done. simpl. exists d.
      repeat split; try done. by intros [?|[= ->]].
  - exists ∅. by repeat split.
Qed.

(** *** More on runs *)



(** A run that returns has made every call of lines 140-173 once and in
    order: the two hooks, the connection, the cursor, the query, the
    temporary file, one write per row of the cursor with the record the
    writer makes of it, the flush, the two closes, [hive.load_file] and the
    removal of the file. *)
Theorem execute_returns_after_load self w w' :
  execute types fault mysql_result csv_writer self w = (w', Ok tt) ->
  let f := fresh (dom (fs w)) in
  exists writerow description lines,
    csv_writer (kwargs self) = Ok writerow
    /\ (mysql_result (sql self)).1 = Some description
    /\ Forall2 (fun row line => writerow row = Ok line)
               (mysql_result (sql self)).2 lines
    /\ trace w' = trace w
         ++ [EvHiveCliHook; EvMySqlHook; EvGetConn; EvCursor;
             EvExecute (sql self); EvTmpCreate f]
         ++ (EvWrite f <$> lines)
         ++ [EvFlush f; EvCursorClose; EvConnClose;
             EvLoadFile (args self f (build_field_dict types description));
             EvTmpClose f].
Proof.
  intros Hrun f.
  destruct (execute_ok_inv _ _ _ Hrun)
    as (writerow & description & lines & Hcsv & Hdesc & Hrows & Htr & _).
  exists writerow, description, lines.
  split; [done|]. split; [done|]. split; [done|].
  rewrite Htr. by rewrite <- !app_assoc.
Qed.

(** A run in which [hive.load_file] is called is that call, made in the
    world [at_load], followed by the exit from the [with] block: the file
    the call is given is the temporary file, which then holds on disk the
    records of all the rows of the cursor, in the order of the cursor, with
    nothing of it left in the buffer of the file object. *)
Theorem staged_file_content self w w' r before a after :
  execute types fault mysql_result csv_writer self w = (w', r) ->
  trace w' = trace w ++ before ++ EvLoadFile a :: after ->
  exists writerow lines,
    csv_writer (kwargs self) = Ok writerow
    /\ Forall2 (fun row line => writerow row = Ok line)
               (mysql_result (sql self)).2 lines
    /\ la_filepath a = fresh (dom (fs w))
    /\ trace (at_load self w (la_filepath a) lines) = trace w ++ before
    /\ fs (at_load self w (la_filepath a) lines) !! la_filepath a
       = Some (String.concat "" lines)
    /\ handles (at_load self w (la_filepath a) lines) !! la_filepath a = Some ""
    /\ (w', r)
       = tmp_exit fault (la_filepath a)
           (load_file fault a (at_load self w (la_filepath a) lines)).1
           (load_file fault a (at_load self w (la_filepath a) lines)).2.
Proof.
  intros Hrun Htr.
  destruct (execute_inv _ _ _ _ Hrun) as [Hfail|Hok].
  - exfalso. destruct Hfail as (tr & e & Htr' & Hnl & _).
    rewrite Htr' in Htr. apply app_inv_head in Htr. subst tr.
    apply (no_load_elem _ a Hnl). in_list.
  - destruct Hok as (writerow & description & lines & Hcsv & _ & Hrows & Hexit).
    destruct (loaded_inv _ _ _ _ _ _ _ (fresh_file w) Hexit) as (Htr' & _).
    rewrite Htr' in Htr. apply app_inv_head in Htr.
    rewrite (app_assoc (prelude self _)) in Htr.
    apply load_split in Htr as (<- & <- & <-);
      [|no_load_events|destruct (fault STmpClose); no_load_events].
    exists writerow, lines. simpl la_filepath.
    split; [done|]. split; [done|]. split; [done|].
    split. { unfold at_load. simpl. by rewrite <- ?app_assoc. }
    split. { unfold at_load. simpl. apply lookup_insert_eq. }
    split. { unfold at_load. simpl. apply lookup_insert_eq. }
    exact Hexit.
Qed.

(** [hive.load_file] is called at most once in a run, and with the name of
    the temporary file, the Field Dictionary of the cursor's description
    and the attributes of the operator; the delimiter it is told is the one
    the records were written with. *)
Theorem load_file_arguments self w w' r before a after :
  execute types fault mysql_result csv_writer self w = (w', r) ->
  trace w' = trace w ++ before ++ EvLoadFile a :: after ->
  no_load before /\ no_load after
  /\ exists description writerow,
       (mysql_result (sql self)).1 = Some description
       /\ csv_writer {| kw_delimiter := la_delimiter a;
                        kw_quoting := quoting self;
                        kw_quotechar := quotechar self;
                        kw_escapechar := escapechar self |} = Ok writerow
       /\ a = {| la_filepath := fresh (dom (fs w));
                 la_table := hive_table self;
                 la_field_dict := build_field_dict types description;
                 la_create := create self;
                 la_partition := partition self;
                 la_delimiter := delimiter self;
                 la_recreate := recreate self;
                 la_tblproperties := tblproperties self |}.
Proof.
  intros Hrun Htr.
  destruct (execute_load_inv _ _ _ _ _ _ _ Hrun Htr)
    as (writerow & description & lines & wb & wa & rl & Hcsv & Hdesc & _ & -> & ->
        & -> & _).
  split; [no_load_events|].
  split; [destruct (fault STmpClose); no_load_events|].
  by exists description, writerow.
Qed.

(** A run in which [hive.load_file] is not called does not return: it
    raises, and the warehouse is as it was. *)
Theorem execute_needs_loader self w w' r tr :
  execute types fault mysql_result csv_writer self w = (w', r) ->
  trace w' = trace w ++ tr ->
  no_load tr ->
  (exists e, r = Raise e) /\ warehouse w' = warehouse w.
Proof.
  intros Hrun Htr Hnl.
  destruct (execute_inv _ _ _ _ Hrun) as [Hfail|Hok].
  - destruct Hfail as (tr' & e & _ & _ & Hwh & -> & _). eauto.
  - exfalso.
    destruct Hok as (writerow & description & lines & _ & _ & _ & Hexit).
    destruct (loaded_inv _ _ _ _ _ _ _ (fresh_file w) Hexit) as (Htr' & _).
    rewrite Htr' in Htr. apply app_inv_head in Htr. subst tr.
    eapply no_load_elem; [exact Hnl|]. in_list.
Qed.

(** A run that got a connection and raised before [hive.load_file] leaves
    the connection open, and the cursor too unless it had just closed it:
    the two closes of lines 161-162 are the only ones. *)
Theorem mysql_left_open self w w' r tr :
  execute types fault mysql_result csv_writer self w = (w', r) ->
  trace w' = trace w ++ tr ->
  no_load tr ->
  EvGetConn ∈ tr ->
  conn w' = Opened
  /\ (EvCursor ∈ tr -> EvCursorClose ∉ tr -> cursor w' = Opened).
Proof.
  intros Hrun Htr Hnl Hconn.
  destruct (execute_inv _ _ _ _ Hrun) as [Hfail|Hok].
  - destruct Hfail as (tr' & e & Htr' & _ & _ & _ & Hopen & _ & Hcur & _).
    rewrite Htr' in Htr. apply app_inv_head in Htr. subst tr'. auto.
  - exfalso.
    destruct Hok as (writerow & description & lines & _ & _ & _ & Hexit).
    destruct (loaded_inv _ _ _ _ _ _ _ (fresh_file w) Hexit) as (Htr' & _).
    rewrite Htr' in Htr. apply app_inv_head in Htr. subst tr.
    eapply no_load_elem; [exact Hnl|]. in_list.
Qed.



(** *** The order of the calls, and where an exception comes from *)

(** Where the exception of a run can come from: a call that failed, the
    writer rejecting the dialect or a row, the loop over a description that
    is [None], or [hive.load_file], called on the temporary file with the
    warehouse as the run found it. *)
Local Abbreviation origin self w e :=
  ((exists s, fault s = Some e)
   \/ csv_writer (kwargs self) = Raise e
   \/ (exists writerow, csv_writer (kwargs self) = Ok writerow
         /\ (mysql_result (sql self)).1 = None /\ e = TypeError)
   \/ (exists writerow row,
         csv_writer (kwargs self) = Ok writerow
         /\ row ∈ (mysql_result (sql self)).2 /\ writerow row = Raise e)
   \/ (exists wb wa,
         load_file fault
           (args self (fresh (dom (fs w)))
              (build_field_dict types (default [] (mysql_result (sql self)).1)))
           wb = (wa, Raise e)
         /\ warehouse wb = warehouse w
         /\ is_Some (fs wb !! fresh (dom (fs w))))).

Lemma execute_script self w w' r tr :
  execute types fault mysql_result csv_writer self w = (w', r) ->
  trace w' = trace w ++ tr ->
  let f := fresh (dom (fs w)) in
  let field_dict :=
    build_field_dict types (default [] (mysql_result (sql self)).1) in
  (forall e, r = Raise e -> origin self w e)
  /\ (tr `prefix_of` [EvHiveCliHook; EvMySqlHook; EvGetConn; EvCursor;
                      EvExecute (sql self)]
      \/ exists lines tr3,
           tr = prelude self f ++ (EvWrite f <$> lines) ++ tr3 ++ closing f
           /\ (forall writerow, csv_writer (kwargs self) = Ok writerow ->
                 Forall2 (fun row line => writerow row = Ok line)
                         (take (length lines) (mysql_result (sql self)).2) lines)
           /\ tr3 `prefix_of` [EvFlush f; EvCursorClose; EvConnClose;
                               EvLoadFile (args self f field_dict)]
           /\ (tr3 <> [] -> length lines = length (mysql_result (sql self)).2)).
Proof.
  intros Hrun Htr f field_dict.
  unfold execute, bind, call, with_NamedTemporaryFile, lift, raise, ret in Hrun.
  destruct (fault SHiveCliHook) eqn:?;
    [injection Hrun as <- <-; run_trace Htr;
     split; [intros ? [= <-]; left; eauto|left; by eexists]|].
  destruct (fault SMySqlHook) eqn:?;
    [injection Hrun as <- <-; run_trace Htr;
     split; [intros ? [= <-]; left; eauto|left; by eexists]|].
  destruct (fault SGetConn) eqn:?;
    [injection Hrun as <- <-; run_trace Htr;
     split; [intros ? [= <-]; left; eauto|left; by eexists]|].
  destruct (fault SCursor) eqn:?;
    [injection Hrun as <- <-; run_trace Htr;
     split; [intros ? [= <-]; left; eauto|left; by eexists]|].
  destruct (fault SExecute) eqn:?;
    [injection Hrun as <- <-; run_trace Htr;
     split; [intros ? [= <-]; left; eauto|left; by eexists]|].
  destruct (fault STmpCreate) eqn:?;
    [injection Hrun as <- <-; run_trace Htr;
     split; [intros ? [= <-]; left; eauto|left; by eexists]|].
  simpl in Hrun. fold f in Hrun.
  (* The [with] block: whatever its body did, the block is left. *)
  match goal with |- ?G =>
    assert (Hclose : forall (w2 : World) (r2 : result unit) lines tr3,
      tmp_exit fault f w2 r2 = (w', r) ->
      trace w2 = trace w ++ prelude self f ++ (EvWrite f <$> lines) ++ tr3 ->
      (forall e, r2 = Raise e -> origin self w e) ->
      (forall writerow, csv_writer (kwargs self) = Ok writerow ->
         Forall2 (fun row line => writerow row = Ok line)
                 (take (length lines) (mysql_result (sql self)).2) lines) ->
      tr3 `prefix_of` [EvFlush f; EvCursorClose; EvConnClose;
                       EvLoadFile (args self f field_dict)] ->
      (tr3 <> [] -> length lines = length (mysql_result (sql self)).2) ->
      G)
  end.
  { intros w2 r2 lines tr3 Hc Htr2 Hr2 Hlines Hpre Hall.
    apply tmp_exit_inv in Hc as (Htr' & _ & _ & _ & _ & _ & Hr).
    assert (Htr3 : tr = prelude self f ++ (EvWrite f <$> lines) ++ tr3 ++ closing f).
    { rewrite Htr', Htr2, <- !app_assoc in Htr. by apply app_inv_head in Htr. }
    split.
    - rewrite Hr. destruct (fault STmpClose) eqn:?; [|done].
      intros ? [= <-]. left. eauto.
    - right. by exists lines, tr3. }
  set (w1 := emit (EvTmpCreate f) _) in Hrun.
  assert (Htr1 : trace w1 = trace w ++ prelude self f ++ (EvWrite f <$> []) ++ []
                 /\ warehouse w1 = warehouse w
                 /\ handles w1 !! f = Some "").
  { subst w1. simpl. rewrite <- !app_assoc, lookup_insert_eq. done. }
  destruct Htr1 as (Htr1 & Hwh1 & Hh1). clearbody w1.
  destruct (csv_writer (kwargs self)) as [writerow|e0] eqn:Hcsv.
  2:{ apply (Hclose _ _ [] [] Hrun Htr1); [| |apply prefix_nil|done].
      - intros ? [= <-]. right. by left.
      - intros ? [=]. }
  destruct (mysql_result (sql self)).1 as [description|] eqn:Hdesc.
  2:{ apply (Hclose _ _ [] [] Hrun Htr1); [| |apply prefix_nil|done].
      - intros ? [= <-]. do 2 right. left. by exists writerow.
      - intros; constructor. }
  destruct (writerows fault f writerow 0 (mysql_result (sql self)).2 w1)
    as [w3 r3] eqn:Hrows.
  apply (writerows_inv _ _ _ _ _ _ _ "") in Hrows
    as (lines & Htr3 & _ & _ & Hfs3 & Hwh3 & _ & Hlines & Hr3); [|done].
  rewrite Htr1 in Htr3. simpl in Htr3. rewrite <- app_assoc in Htr3.
  assert (Hlines' : forall writerow', Ok writerow = Ok writerow' ->
            Forall2 (fun row line => writerow' row = Ok line)
                    (take (length lines) (mysql_result (sql self)).2) lines)
    by (by intros ? [= <-]).
  destruct r3 as [[]|e3].
  2:{ apply (Hclose _ _ lines [] Hrun); [by rewrite app_nil_r| |done|apply prefix_nil|done].
      intros ? [= <-]. destruct Hr3 as [?|(row & ? & ?)]; [by left|].
      do 3 right. left. by exists writerow, row. }
  assert (Hall : length lines = length (mysql_result (sql self)).2)
    by (symmetry; by eapply Forall2_length).
  destruct (fault SFlush) eqn:?.
  { apply (Hclose _ _ lines [] Hrun); [by rewrite app_nil_r| |done|apply prefix_nil|done].
    intros ? [= <-]. left. eauto. }
  destruct (fault SCursorClose) eqn:?.
  { apply (Hclose _ _ lines [EvFlush f] Hrun);
      [simpl; by rewrite Htr3, <- !app_assoc| |done|by eexists|done].
    intros ? [= <-]. left. eauto. }
  destruct (fault SConnClose) eqn:?.
  { apply (Hclose _ _ lines [EvFlush f; EvCursorClose] Hrun);
      [simpl; by rewrite Htr3, <- !app_assoc| |done|by eexists|done].
    intros ? [= <-]. left. eauto. }
  match type of Hrun with
  | context [load_file fault ?a ?wb] =>
      destruct (load_file fault a wb) as [w7 r7] eqn:Hload
  end.
  pose proof (load_file_inv _ _ _ _ Hload) as (Htr7 & _).
  apply (Hclose _ _ lines
           [EvFlush f; EvCursorClose; EvConnClose;
            EvLoadFile (args self f (build_field_dict types description))] Hrun);
    [rewrite Htr7; simpl; by rewrite Htr3, <- !app_assoc| |done| |done].
  - intros ? [= ->]. do 4 right.
    fold f. subst field_dict. rewrite ?Hdesc. simpl.
    eexists _, _. split; [exact Hload|]. simpl.
    split; [congruence|]. rewrite lookup_insert_eq. by eexists.
  - subst field_dict. rewrite ?Hdesc. done.
Qed.

(** In every run the external calls are made in program order, none
    skipped and none repeated.  The calls of a run are an initial segment
    of the two hooks, the connection, the cursor and the query; or all of
    these and the temporary file, then the writes of the first rows of the
    cursor, each the writer's record of its row, then an initial segment of
    the flush, the two closes and [hive.load_file], of which there is none
    unless every row has been written, and last, unless closing the file
    raises, the removal of the temporary file. *)
Theorem execute_call_order self w w' r tr :
  execute types fault mysql_result csv_writer self w = (w', r) ->
  trace w' = trace w ++ tr ->
  let f := fresh (dom (fs w)) in
  let field_dict :=
    build_field_dict types (default [] (mysql_result (sql self)).1) in
  tr `prefix_of` [EvHiveCliHook; EvMySqlHook; EvGetConn; EvCursor;
                  EvExecute (sql self)]
  \/ exists lines tr3,
       tr = [EvHiveCliHook; EvMySqlHook; EvGetConn; EvCursor;
             EvExecute (sql self); EvTmpCreate f]
            ++ (EvWrite f <$> lines) ++ tr3
            ++ match fault STmpClose with
               | Some _ => []
               | None => [EvTmpClose f]
               end
       /\ (forall writerow, csv_writer (kwargs self) = Ok writerow ->
             Forall2 (fun row line => writerow row = Ok line)
                     (take (length lines) (mysql_result (sql self)).2) lines)
       /\ tr3 `prefix_of` [EvFlush f; EvCursorClose; EvConnClose;
                           EvLoadFile (args self f field_dict)]
       /\ (tr3 <> [] -> length lines = length (mysql_result (sql self)).2).
Proof.
  intros Hrun Htr f field_dict.
  destruct (execute_script _ _ _ _ _ Hrun Htr) as (_ & Hshape).
  destruct Hshape as [?|(lines & tr3 & -> & Hlines & Hpre & Hall)]; [by left|].
  right. by exists lines, tr3.
Qed.


(** When MySQL fails, on [get_conn], on [cursor] or on the query, the run
    raises before a temporary file is created: it has made no call beyond
    the four that precede the query, and has left the file objects and the
    warehouse alone. *)
Theorem execute_mysql_error self w w' r tr (e : exn) :
  fault SGetConn = Some e \/ fault SCursor = Some e \/ fault SExecute = Some e ->
  execute types fault mysql_result csv_writer self w = (w', r) ->
  trace w' = trace w ++ tr ->
  (exists e', r = Raise e')
  /\ tr `prefix_of` [EvHiveCliHook; EvMySqlHook; EvGetConn; EvCursor]
  /\ handles w' = handles w
  /\ warehouse w' = warehouse w.
Proof.
  intros Hfault Hrun Htr.
  unfold execute, bind, call in Hrun.
  destruct (fault SHiveCliHook) eqn:?;
    [injection Hrun as <- <-; run_trace Htr;
     split; [eauto|split; [by eexists|done]]|].
  destruct (fault SMySqlHook) eqn:?;
    [injection Hrun as <- <-; run_trace Htr;
     split; [eauto|split; [by eexists|done]]|].
  destruct (fault SGetConn) eqn:?;
    [injection Hrun as <- <-; run_trace Htr;
     split; [eauto|split; [by eexists|done]]|].
  destruct (fault SCursor) eqn:?;
    [injection Hrun as <- <-; run_trace Htr;
     split; [eauto|split; [by eexists|done]]|].
  destruct (fault SExecute) eqn:?;
    [injection Hrun as <- <-; run_trace Htr;
     split; [eauto|split; [by eexists|done]]|].
  by destruct Hfault as [?|[?|?]].
Qed.

End RunFacts.

(** ** The sample query *)

Section Samples.
Import Run.

Local Abbreviation run fault result writer self :=
  (execute FIELD_TYPE.MySQLdb fault result writer self Demo.w0).

Local Abbreviation sample self :=
  (execute FIELD_TYPE.MySQLdb Demo.no_fault Demo.mysql_result Demo.csv_writer self
     Demo.w0).

(** The columns of the sample query have distinct names. *)
Lemma field_dict_column_order_sample :
  NoDup (f_name <$> Demo.description)
  /\ build_field_dict FIELD_TYPE.MySQLdb Demo.description
     = [("id", "BIGINT"); ("name", "STRING")].
Proof.
  assert (Hnd : NoDup (f_name <$> Demo.description))
    by (apply (bool_decide_unpack _); vm_compute; exact I).
  split; [exact Hnd|].
  rewrite (field_dict_column_order FIELD_TYPE.MySQLdb Demo.description Hnd).
  vm_compute. reflexivity.
Defined.

(** C2 as stated fails on a query that selects [id] twice: the Field
    Dictionary has one key for the two columns, and the first column, a
    LONG, is not given its type BIGINT. *)
Lemma field_dict_duplicate_names :
  Py.od_keys (build_field_dict FIELD_TYPE.MySQLdb Demo.twice)
    <> (f_name <$> Demo.twice)
  /\ Py.od_get (build_field_dict FIELD_TYPE.MySQLdb Demo.twice) "id"
       <> Some (type_map FIELD_TYPE.MySQLdb 3).
Proof.
  split; intros Heq; vm_compute in Heq; discriminate Heq.
Qed.

(** The two [id] columns of [Demo.twice]: one entry, of the type of the
    second. *)
Lemma field_dict_last_wins_sample :
  Py.od_get (build_field_dict FIELD_TYPE.MySQLdb Demo.twice) "id" = Some "SMALLINT"
  /\ length (build_field_dict FIELD_TYPE.MySQLdb Demo.twice) < length Demo.twice.
Proof.
  destruct (field_dict_last_wins FIELD_TYPE.MySQLdb Demo.twice 0 1
              {| f_name := "id"; f_type_code := 3 |}
              {| f_name := "id"; f_type_code := 1 |})
    as (_ & (f & Hlast & Hget) & Hlen).
  - reflexivity.
  - reflexivity.
  - lia.
  - reflexivity.
  - vm_compute in Hlast. injection Hlast as <-. split; [exact Hget|exact Hlen].
Defined.

(** C4 as stated fails on the sample run: when [hive.load_file] is called,
    the file object of the temporary file is open. *)
Lemma handle_open_during_load :
  trace (sample Demo.op).1
  = Demo.staged Demo.op ++ EvLoadFile (Demo.loaded Demo.op) :: [EvTmpClose "0"]
  /\ is_open (la_filepath (Demo.loaded Demo.op)) (Demo.staged Demo.op) = true.
Proof.
  split; vm_compute; reflexivity.
Qed.

Lemma staged_file_flushed_before_load_sample :
  pending "0" (Demo.staged Demo.op) = ""
  /\ is_open "0" (Demo.staged Demo.op) = true.
Proof.
  destruct (staged_file_flushed_before_load FIELD_TYPE.MySQLdb Demo.no_fault
              Demo.mysql_result Demo.csv_writer Demo.op Demo.w0
              (sample Demo.op).1 (sample Demo.op).2
              (Demo.staged Demo.op) (Demo.loaded Demo.op) [EvTmpClose "0"])
    as (_ & Hpending & Hopen & _).
  - apply surjective_pairing.
  - vm_compute. reflexivity.
  - split; [exact Hpending|exact Hopen].
Defined.

(** C5 as stated fails when the disk fails on the second record: the run
    raises IOError and leaves the connection and the cursor open. *)
Lemma mysql_open_after_write_error :
  (run Demo.disk_full Demo.mysql_result Demo.csv_writer Demo.op).2 = Raise IOError
  /\ conn (run Demo.disk_full Demo.mysql_result Demo.csv_writer Demo.op).1 = Opened
  /\ cursor (run Demo.disk_full Demo.mysql_result Demo.csv_writer Demo.op).1 = Opened.
Proof.
  repeat split; vm_compute; reflexivity.
Qed.

(** The sample run closes both; the run in which the disk fails closes
    neither. *)
Lemma mysql_closed_before_load_sample :
  (conn (sample Demo.op).1 = Closed /\ cursor (sample Demo.op).1 = Closed)
  /\ (conn (run Demo.disk_full Demo.mysql_result Demo.csv_writer Demo.op).1 = Opened
      /\ cursor (run Demo.disk_full Demo.mysql_result Demo.csv_writer Demo.op).1
         = Opened).
Proof.
  split.
  - destruct (mysql_closed_before_load FIELD_TYPE.MySQLdb Demo.no_fault
                Demo.mysql_result Demo.csv_writer Demo.op Demo.w0
                (sample Demo.op).1 (sample Demo.op).2
                (Demo.staged Demo.op
                 ++ [EvLoadFile (Demo.loaded Demo.op); EvTmpClose "0"]))
      as [Hclosed _].
    + apply surjective_pairing.
    + vm_compute. reflexivity.
    + destruct Hclosed as (Hconn & Hcursor & _).
      * left. vm_compute. reflexivity.
      * split; [exact Hconn|exact Hcursor].
  - destruct (mysql_closed_before_load FIELD_TYPE.MySQLdb Demo.disk_full
                Demo.mysql_result Demo.csv_writer Demo.op Demo.w0
                (run Demo.disk_full Demo.mysql_result Demo.csv_writer Demo.op).1
                (run Demo.disk_full Demo.mysql_result Demo.csv_writer Demo.op).2
                [EvHiveCliHook; EvMySqlHook; EvGetConn; EvCursor;
                 EvExecute (sql Demo.op); EvTmpCreate "0";
                 EvWrite "0" (String.concat (delimiter Demo.op) ["1"; "ann"]
                              +:+ Demo.crlf);
                 EvTmpClose "0"])
      as [_ Hopen].
    + apply surjective_pairing.
    + vm_compute. reflexivity.
    + destruct Hopen as (_ & Hconn & Hcursor).
      * intros a Ha.
        repeat (apply elem_of_cons in Ha as [Ha|Ha]; [discriminate Ha|]).
        by apply elem_of_nil in Ha.
      * split.
        -- apply Hconn. do 2 apply list_elem_of_further. apply list_elem_of_here.
        -- apply Hcursor.
           ++ do 3 apply list_elem_of_further. apply list_elem_of_here.
           ++ intros Ha.
              repeat (apply elem_of_cons in Ha as [Ha|Ha]; [discriminate Ha|]).
              by apply elem_of_nil in Ha.
Defined.

(** C6 as stated fails when the disk fails on the second record and again
    when the file is closed: the run raises IOError, the temporary file was
    created, and it is still on disk when the run ends. *)
Lemma temporary_file_left_on_disk :
  (run Demo.close_fails Demo.mysql_result Demo.csv_writer Demo.op).2 = Raise IOError
  /\ EvTmpCreate "0"
       ∈ trace (run Demo.close_fails Demo.mysql_result Demo.csv_writer Demo.op).1
  /\ fs Demo.w0 !! "0" = None
  /\ fs (run Demo.close_fails Demo.mysql_result Demo.csv_writer Demo.op).1 !! "0"
       <> None.
Proof.
  split; [vm_compute; reflexivity|]. split.
  - vm_compute. do 5 apply list_elem_of_further. apply list_elem_of_here.
  - split; [reflexivity|]. intros Heq. vm_compute in Heq. discriminate Heq.
Qed.

(** In the sample run, and in the run in which the disk fails, the file is
    gone at the end. *)
Lemma temporary_file_removed_sample :
  fs (sample Demo.op).1 !! "0" = None
  /\ fs (run Demo.disk_full Demo.mysql_result Demo.csv_writer Demo.op).1 !! "0"
     = None.
Proof.
  split.
  - destruct (temporary_file_removed FIELD_TYPE.MySQLdb Demo.no_fault
                Demo.mysql_result Demo.csv_writer Demo.op Demo.w0
                (sample Demo.op).1 (sample Demo.op).2
                (Demo.staged Demo.op
                 ++ [EvLoadFile (Demo.loaded Demo.op); EvTmpClose "0"]) "0")
      as (_ & _ & _ & Hgone & _).
    + apply surjective_pairing.
    + vm_compute. reflexivity.
    + do 5 apply list_elem_of_further. apply list_elem_of_here.
    + exact Hgone.
  - destruct (temporary_file_removed FIELD_TYPE.MySQLdb Demo.disk_full
                Demo.mysql_result Demo.csv_writer Demo.op Demo.w0
                (run Demo.disk_full Demo.mysql_result Demo.csv_writer Demo.op).1
                (run Demo.disk_full Demo.mysql_result Demo.csv_writer Demo.op).2
                [EvHiveCliHook; EvMySqlHook; EvGetConn; EvCursor;
                 EvExecute (sql Demo.op); EvTmpCreate "0";
                 EvWrite "0" (String.concat (delimiter Demo.op) ["1"; "ann"]
                              +:+ Demo.crlf);
                 EvTmpClose "0"] "0")
      as (_ & _ & _ & Hgone & _).
    + apply surjective_pairing.
    + vm_compute. reflexivity.
    + do 5 apply list_elem_of_further. apply list_elem_of_here.
    + exact Hgone.
Defined.

(** [Demo.load_only] on an empty warehouse. *)
Lemma load_without_table_sample :
  warehouse (sample Demo.load_only).1 = ∅
  /\ (sample Demo.load_only).2 = Raise TableNotFoundError.
Proof.
  destruct (load_without_table FIELD_TYPE.MySQLdb Demo.no_fault
              Demo.mysql_result Demo.csv_writer Demo.load_only Demo.w0
              (sample Demo.load_only).1 (sample Demo.load_only).2)
    as (Hwh & _ & Hload).
  - reflexivity.
  - reflexivity.
  - vm_compute. reflexivity.
  - apply surjective_pairing.
  - split; [exact Hwh|].
    destruct (Hload (Demo.staged Demo.load_only) (Demo.loaded Demo.load_only)
                [EvTmpClose "0"]) as (wb & _ & _ & Hr).
    + vm_compute. reflexivity.
    + apply Hr. reflexivity.
Defined.

(** The operator of the sample is made without a partition. *)
Lemma partition_is_mapping_sample :
  la_partition (Demo.loaded Demo.op) = Some ∅.
Proof.
  destruct (partition_is_mapping FIELD_TYPE.MySQLdb Demo.no_fault
              Demo.mysql_result Demo.csv_writer
              (default_args "select id, name from t" "staging.t") Demo.w0
              (sample Demo.op).1 (sample Demo.op).2
              (Demo.staged Demo.op) (Demo.loaded Demo.op) [EvTmpClose "0"])
    as (d & Hla & _ & Hnone & _).
  - apply surjective_pairing.
  - vm_compute. reflexivity.
  - rewrite Hla, Hnone; [reflexivity|left; reflexivity].
Defined.

Lemma execute_returns_after_load_sample :
  exists lines,
    length lines = length Demo.rows
    /\ trace (sample Demo.op).1
       = [EvHiveCliHook; EvMySqlHook; EvGetConn; EvCursor;
          EvExecute (sql Demo.op); EvTmpCreate "0"]
         ++ (EvWrite "0" <$> lines)
         ++ [EvFlush "0"; EvCursorClose; EvConnClose;
             EvLoadFile (Demo.loaded Demo.op); EvTmpClose "0"].
Proof.
  destruct (execute_returns_after_load FIELD_TYPE.MySQLdb Demo.no_fault
              Demo.mysql_result Demo.csv_writer Demo.op Demo.w0
              (sample Demo.op).1)
    as (writerow & description & lines & _ & Hdesc & Hrows & Htr).
  - vm_compute. reflexivity.
  - exists lines. split.
    + symmetry. exact (Forall2_length _ _ _ Hrows).
    + injection Hdesc as <-. exact Htr.
Defined.

Lemma staged_file_content_sample :
  exists lines,
    fs (at_load Demo.op Demo.w0 "0" lines) !! "0" = Some (String.concat "" lines)
    /\ sample Demo.op
       = tmp_exit Demo.no_fault "0"
           (load_file Demo.no_fault (Demo.loaded Demo.op)
              (at_load Demo.op Demo.w0 "0" lines)).1
           (load_file Demo.no_fault (Demo.loaded Demo.op)
              (at_load Demo.op Demo.w0 "0" lines)).2.
Proof.
  destruct (staged_file_content FIELD_TYPE.MySQLdb Demo.no_fault
              Demo.mysql_result Demo.csv_writer Demo.op Demo.w0
              (sample Demo.op).1 (sample Demo.op).2
              (Demo.staged Demo.op) (Demo.loaded Demo.op) [EvTmpClose "0"])
    as (writerow & lines & _ & _ & _ & _ & Hfs & _ & Hrun).
  - apply surjective_pairing.
  - vm_compute. reflexivity.
  - exists lines. split; [exact Hfs|].
    transitivity ((sample Demo.op).1, (sample Demo.op).2);
      [apply surjective_pairing|exact Hrun].
Defined.

Lemma load_file_arguments_sample :
  exists description,
    Demo.loaded Demo.op
    = {| la_filepath := "0";
         la_table := "staging.t";
         la_field_dict := build_field_dict FIELD_TYPE.MySQLdb description;
         la_create := true;
         la_partition := Some ∅;
         la_delimiter := String (ascii_of_nat 1) EmptyString;
         la_recreate := false;
         la_tblproperties := None |}.
Proof.
  destruct (load_file_arguments FIELD_TYPE.MySQLdb Demo.no_fault
              Demo.mysql_result Demo.csv_writer Demo.op Demo.w0
              (sample Demo.op).1 (sample Demo.op).2
              (Demo.staged Demo.op) (Demo.loaded Demo.op) [EvTmpClose "0"])
    as (_ & _ & description & writerow & _ & _ & Ha).
  - apply surjective_pairing.
  - vm_compute. reflexivity.
  - exists description. exact Ha.
Defined.

(** The run in which the disk fails on the second record. *)
Lemma execute_needs_loader_sample :
  exists e, (run Demo.disk_full Demo.mysql_result Demo.csv_writer Demo.op).2 = Raise e.
Proof.
  destruct (execute_needs_loader FIELD_TYPE.MySQLdb Demo.disk_full
              Demo.mysql_result Demo.csv_writer Demo.op Demo.w0
              (run Demo.disk_full Demo.mysql_result Demo.csv_writer Demo.op).1
              (run Demo.disk_full Demo.mysql_result Demo.csv_writer Demo.op).2
              [EvHiveCliHook; EvMySqlHook; EvGetConn; EvCursor;
               EvExecute (sql Demo.op); EvTmpCreate "0";
               EvWrite "0" (String.concat (delimiter Demo.op) ["1"; "ann"] +:+ Demo.crlf);
               EvTmpClose "0"])
    as (He & _).
  - apply surjective_pairing.
  - vm_compute. reflexivity.
  - repeat constructor.
  - exact He.
Defined.

Lemma mysql_left_open_sample :
  conn (run Demo.disk_full Demo.mysql_result Demo.csv_writer Demo.op).1 = Opened.
Proof.
  destruct (mysql_left_open FIELD_TYPE.MySQLdb Demo.disk_full
              Demo.mysql_result Demo.csv_writer Demo.op Demo.w0
              (run Demo.disk_full Demo.mysql_result Demo.csv_writer Demo.op).1
              (run Demo.disk_full Demo.mysql_result Demo.csv_writer Demo.op).2
              [EvHiveCliHook; EvMySqlHook; EvGetConn; EvCursor;
               EvExecute (sql Demo.op); EvTmpCreate "0";
               EvWrite "0" (String.concat (delimiter Demo.op) ["1"; "ann"] +:+ Demo.crlf);
               EvTmpClose "0"])
    as (Hconn & _).
  - apply surjective_pairing.
  - vm_compute. reflexivity.
  - repeat constructor.
  - do 2 apply list_elem_of_further. apply list_elem_of_here.
  - exact Hconn.
Defined.



(** The calls of the run in which the disk fails on the second record, and
    where its IOError comes from. *)
Lemma execute_call_order_sample :
  exists lines tr3,
    trace (run Demo.disk_full Demo.mysql_result Demo.csv_writer Demo.op).1
    = [EvHiveCliHook; EvMySqlHook; EvGetConn; EvCursor; EvExecute (sql Demo.op);
       EvTmpCreate "0"] ++ (EvWrite "0" <$> lines) ++ tr3 ++ [EvTmpClose "0"]
    /\ tr3 `prefix_of`
         [EvFlush "0"; EvCursorClose; EvConnClose; EvLoadFile (Demo.loaded Demo.op)]
    /\ (tr3 <> [] -> length lines = length Demo.rows).
Proof.
  destruct (execute_call_order FIELD_TYPE.MySQLdb Demo.disk_full
              Demo.mysql_result Demo.csv_writer Demo.op Demo.w0
              (run Demo.disk_full Demo.mysql_result Demo.csv_writer Demo.op).1
              (run Demo.disk_full Demo.mysql_result Demo.csv_writer Demo.op).2
              (trace (run Demo.disk_full Demo.mysql_result Demo.csv_writer
                        Demo.op).1))
    as [Hearly|(lines & tr3 & Htr & _ & Hpre & Hall)].
  - apply surjective_pairing.
  - reflexivity.
  - apply prefix_length in Hearly. vm_compute in Hearly. lia.
  - exists lines, tr3. split; [exact Htr|]. split; [exact Hpre|exact Hall].
Defined.


Lemma execute_mysql_error_sample :
  exists e,
    (execute FIELD_TYPE.MySQLdb
       (fun s => match s with SExecute => Some QueryError | _ => None end)
       Demo.mysql_result Demo.csv_writer Demo.op Demo.w0).2 = Raise e.
Proof.
  destruct (execute_mysql_error FIELD_TYPE.MySQLdb
              (fun s => match s with SExecute => Some QueryError | _ => None end)
              Demo.mysql_result Demo.csv_writer Demo.op Demo.w0
              (execute FIELD_TYPE.MySQLdb
                 (fun s => match s with SExecute => Some QueryError | _ => None end)
                 Demo.mysql_result Demo.csv_writer Demo.op Demo.w0).1
              (execute FIELD_TYPE.MySQLdb
                 (fun s => match s with SExecute => Some QueryError | _ => None end)
                 Demo.mysql_result Demo.csv_writer Demo.op Demo.w0).2
              [EvHiveCliHook; EvMySqlHook; EvGetConn; EvCursor] QueryError)
    as (He & _).
  - right. right. reflexivity.
  - apply surjective_pairing.
  - vm_compute. reflexivity.
  - exact He.
Defined.

(** With the codes of MySQLdb, LONGLONG is 8. *)
Lemma type_map_preimages_MySQLdb :
  type_map FIELD_TYPE.MySQLdb 8 = "DECIMAL(38,0)"
  <-> 8%Z = FIELD_TYPE.LONGLONG FIELD_TYPE.MySQLdb.
Proof.
  apply (type_map_preimages FIELD_TYPE.MySQLdb 8).
  apply (bool_decide_unpack _). vm_compute. exact I.
Defined.

End Samples.
